(** * radiopds4: the line-oriented XML template engine and the TRK-2-34
      table assembler

    A shallow embedding of [src/pds4/template.py] (class [XML_Template]:
    [replace], [insert], [read]) and of the table loop of [Label.fill] in
    [scripts/pds4.trk234.py], followed by the properties of the label
    generator that are established about them. The files the engine loads
    and writes, [src/pds4/util.py], and the parts of the label scripts that
    drive the engine are embedded behind them, with their own properties.

    Python values are modelled as follows.
    - A [str] is a list of characters ([ascii], read as code points below
      256; the two delimiters and the markers are plain ASCII).
    - [self.data], the result of [readlines()], is a list of such strings.
    - Integers are unbounded, hence [Z].
    - A call either returns a value or raises: the type [result]. *)

From Stdlib Require Import String Ascii DecimalString ZArith Bool Lia List.
From Stdlib Require DecimalPos.
From Equations Require Import Equations.
Import ListNotations.

Set Implicit Arguments.

(** ** Python strings, indices and slices *)

Module PyStr.

Definition pystr := list ascii.

(** String literals of the development. *)
Definition py (s : string) : pystr := list_ascii_of_string s.

(** The double quote, which occurs inside some markers. *)
Definition dquote : ascii := ascii_of_nat 34.

Definition gt : ascii := ascii_of_nat 62.  (* '>' *)
Definition lt : ascii := ascii_of_nat 60.  (* '<' *)

(** [s.find(c)] for a one-character [c]: the lowest index, or -1. *)
Fixpoint find (c : ascii) (s : pystr) : Z :=
  match s with
  | [] => (-1)%Z
  | x :: r =>
      if Ascii.eqb x c then 0%Z
      else let k := find c r in
           if (k <? 0)%Z then (-1)%Z else (k + 1)%Z
  end.

(** [s.rfind(c)] for a one-character [c]: the highest index, or -1. *)
Fixpoint rfind (c : ascii) (s : pystr) : Z :=
  match s with
  | [] => (-1)%Z
  | x :: r =>
      let k := rfind c r in
      if (0 <=? k)%Z then (k + 1)%Z
      else if Ascii.eqb x c then 0%Z else (-1)%Z
  end.

(** A slice bound [i] on a sequence of length [len]: a negative bound counts
    from the end, and the outcome is clamped to [0 .. len]. *)
Definition clamp (len : nat) (i : Z) : nat :=
  Z.to_nat (if (i <? 0)%Z then Z.max 0 (i + Z.of_nat len)
            else Z.min i (Z.of_nat len)).

Definition bound_lo (len : nat) (lo : option Z) : nat :=
  match lo with None => 0%nat | Some i => clamp len i end.

Definition bound_hi (len : nat) (hi : option Z) : nat :=
  match hi with None => len | Some j => clamp len j end.

(** [s[lo:hi]]; an omitted bound is [None]. *)
Definition slice {A} (s : list A) (lo hi : option Z) : list A :=
  let b := bound_lo (length s) lo in
  let e := bound_hi (length s) hi in
  firstn (e - b) (skipn b s).

(** [s[lo:hi] = c] on a list. *)
Definition slice_assign {A} (s : list A) (lo hi : option Z) (c : list A)
  : list A :=
  let b := bound_lo (length s) lo in
  let e := bound_hi (length s) hi in
  firstn b s ++ c ++ skipn (Nat.max b e) s.

(** [m] is a prefix of [s]. *)
Fixpoint startswith (m s : pystr) : bool :=
  match m, s with
  | [], _ => true
  | _ :: _, [] => false
  | a :: m', b :: s' => Ascii.eqb a b && startswith m' s'
  end.

(** [m in s]: plain substring containment. *)
Fixpoint str_in (m s : pystr) : bool :=
  match s with
  | [] => startswith m []
  | _ :: r => startswith m s || str_in m r
  end.

(** [a == b] on strings. *)
Fixpoint str_eqb (a b : pystr) : bool :=
  match a, b with
  | [], [] => true
  | x :: a', y :: b' => Ascii.eqb x y && str_eqb a' b'
  | _, _ => false
  end.

End PyStr.

Import PyStr.

(** ** Outcomes of a call *)

Inductive exn : Set :=
| IndexError | TypeError | ValueError | KeyError.

Inductive result (A : Type) : Type :=
| Ok (a : A)
| Raise (e : exn).

Arguments Ok {A} a.
Arguments Raise {A} e.

Definition bind {A B} (r : result A) (k : A -> result B) : result B :=
  match r with
  | Ok a => k a
  | Raise e => Raise e
  end.

Notation "x <- r ;; k" := (bind r (fun x => k))
  (at level 61, r at next level, right associativity).

(** [l[i]] on a list: negative indices count from the end, an index out of
    range raises [IndexError]. *)
Definition getitem {A} (l : list A) (i : Z) : result A :=
  let j := if (i <? 0)%Z then (i + Z.of_nat (length l))%Z else i in
  if (j <? 0)%Z then Raise IndexError
  else match nth_error l (Z.to_nat j) with
       | Some a => Ok a
       | None => Raise IndexError
       end.

(** The values [read] can hand back, and the objects [insert] can be given. *)
Inductive pyval : Type :=
| PyNone
| PyStr (s : pystr)
| PyList (l : list pystr)
| PyOther.

(** ** [int(x)] and [str(n)] *)

Module PyInt.

Definition is_space (c : ascii) : bool :=
  let n := nat_of_ascii c in
  ((9 <=? n) && (n <=? 13) || (n =? 32) || (n =? 133) || (n =? 160))%nat.

Definition digit_of (c : ascii) : option Z :=
  let n := nat_of_ascii c in
  if ((48 <=? n) && (n <=? 57))%nat then Some (Z.of_nat (n - 48)) else None.

Definition underscore : ascii := ascii_of_nat 95.
Definition plus : ascii := ascii_of_nat 43.
Definition minus : ascii := ascii_of_nat 45.

Fixpoint lstrip (s : pystr) : pystr :=
  match s with
  | c :: r => if is_space c then lstrip r else s
  | [] => []
  end.

Definition strip (s : pystr) : pystr := rev (lstrip (rev (lstrip s))).

(** The digits after the first one: each is a digit, or one underscore
    followed by a digit. [acc] is the value read so far. *)
Fixpoint digits_tail (s : pystr) (acc : Z) : option Z :=
  match s with
  | [] => Some acc
  | c :: r =>
      match digit_of c with
      | Some d => digits_tail r (10 * acc + d)%Z
      | None =>
          if Ascii.eqb c underscore then
            match r with
            | c' :: r' =>
                match digit_of c' with
                | Some d => digits_tail r' (10 * acc + d)%Z
                | None => None
                end
            | [] => None
            end
          else None
      end
  end.

Definition digits (s : pystr) : option Z :=
  match s with
  | c :: r =>
      match digit_of c with
      | Some d => digits_tail r d
      | None => None
      end
  | [] => None
  end.

(** [int(s)] on a string, base 10. *)
Definition int_of_str (s : pystr) : result Z :=
  let body := strip s in
  let signed :=
    match body with
    | c :: r =>
        if Ascii.eqb c minus then option_map Z.opp (digits r)
        else if Ascii.eqb c plus then digits r
        else digits body
    | [] => None
    end in
  match signed with
  | Some z => Ok z
  | None => Raise ValueError
  end.

(** [int(x)] on what [read] returns: only a string can be converted. *)
Definition int (x : pyval) : result Z :=
  match x with
  | PyStr s => int_of_str s
  | _ => Raise TypeError
  end.

(** [str(n)] on an integer. *)
Definition str (n : Z) : pystr :=
  list_ascii_of_string (NilZero.string_of_int (Z.to_int n)).

End PyInt.

(** ** The template engine: [class XML_Template] *)

Module XML_Template.

(** The line a match of [replace] is rewritten to:
    [line[:start+1] + replace_string + line[stop:]]. *)
Definition replace_line (replace_string line : pystr) : pystr :=
  let start := find gt line in
  let stop := rfind lt line in
  slice line None (Some (start + 1)%Z) ++ replace_string
    ++ slice line (Some stop) None.

(** [replace(xml_string, replace_string, replace_one)], as a function from
    [self.data] before the call to [self.data] after it. The loop visits the
    lines in order; the assignment [self.data[index] = new] touches only the
    line being visited, so the lines still to come are the original ones. *)
Fixpoint replace (xml_string replace_string : pystr) (replace_one : bool)
  (data : list pystr) : list pystr :=
  match data with
  | [] => []
  | line :: rest =>
      if str_in xml_string line then
        replace_line replace_string line
          :: (if replace_one then rest
              else replace xml_string replace_string replace_one rest)
      else line :: replace xml_string replace_string replace_one rest
  end.

(** The list [ind] built by the first loop of [insert]; [i] is the index of
    the head of [data]. *)
Fixpoint match_indices (xml_after : pystr) (i : Z) (data : list pystr)
  : list Z :=
  match data with
  | [] => []
  | line :: rest =>
      if str_in xml_after line then i :: match_indices xml_after (i + 1)%Z rest
      else match_indices xml_after (i + 1)%Z rest
  end.

(** [insert(xml_after, insert_string, location)]: [self.data] after the
    call, or the exception raised. With a [location] other than 'last' and
    'first' the [SyntaxError] is built but not raised, [ind] stays a list,
    and [ind+1] raises [TypeError]. An [insert_string] that is neither a list
    nor a string is passed over. *)
Definition insert (xml_after : pystr) (insert_string : pyval)
  (location : pystr) (data : list pystr) : result (list pystr) :=
  let ind := match_indices xml_after 0%Z data in
  if (length ind =? 0)%nat then Ok data
  else
    picked <-
      (if str_eqb location (py "last") then
         i <- getitem ind (-1)%Z ;; Ok (Some i)
       else if str_eqb location (py "first") then
         i <- getitem ind 0%Z ;; Ok (Some i)
       else Ok None) ;;
    match insert_string with
    | PyList l =>
        match picked with
        | Some i =>
            Ok (slice_assign data (Some (i + 1)%Z) (Some (i + 1)%Z) l)
        | None => Raise TypeError
        end
    | PyStr s =>
        match picked with
        | Some i =>
            Ok (slice_assign data (Some (i + 1)%Z) (Some (i + 1)%Z) [s])
        | None => Raise TypeError
        end
    | _ => Ok data
    end.

(** The value [read] takes from a matching line: [line[start+1:stop]]. *)
Definition found_value (line : pystr) : pystr :=
  let start := find gt line in
  let stop := rfind lt line in
  slice line (Some (start + 1)%Z) (Some stop).

(** The loop of [read], then the code after it. [val] is the list collected
    so far. After the loop, a [searchtype] other than 'all' and 'last'
    reaches the last branch, where the [IOError] is built but not raised:
    the method ends and returns [None]. *)
Fixpoint read_loop (xml_string searchtype : pystr) (data : list pystr)
  (val : list pystr) : result pyval :=
  match data with
  | line :: rest =>
      if str_in xml_string line then
        if str_eqb searchtype (py "first") then Ok (PyStr (found_value line))
        else read_loop xml_string searchtype rest (val ++ [found_value line])
      else read_loop xml_string searchtype rest val
  | [] =>
      if str_eqb searchtype (py "all") then Ok (PyList val)
      else if str_eqb searchtype (py "last") then
        v <- getitem val (-1)%Z ;; Ok (PyStr v)
      else Ok PyNone
  end.

Definition read (xml_string searchtype : pystr) (data : list pystr)
  : result pyval :=
  read_loop xml_string searchtype data [].

End XML_Template.

Import XML_Template.

(** ** The table loop of [Label.fill] in [scripts/pds4.trk234.py] *)

Module Label.

(** What the loop uses of [trk234.Info], the decoder of the tracking file,
    which is a collaborator outside this repository: the list of the data
    types present, and the lookup [numberDataTypes[i]] of the number of
    records of a data type, which may raise. Data types are SFDU format
    codes, which are unsigned. *)
Record Info : Type := {
  dataTypes : list nat;
  numberDataTypes : nat -> result Z
}.

(** The state the loop works on: the counter [byte_location], the host
    document [self.Template.data], and the documents of the eighteen
    [self.tableTemplate[i]], which the loop edits in place. *)
Record state : Type := {
  byte_location : Z;
  Template : list pystr;
  tableTemplate : list (list pystr)
}.

Definition record_length_marker : pystr :=
  py "<record_length unit=" ++ dquote :: py "byte" ++ dquote :: py ">".

Definition offset_marker : pystr :=
  py "<offset unit=" ++ dquote :: py "byte" ++ dquote :: py ">".

(** The effect on the list of sub-templates of editing the [i]-th in place. *)
Fixpoint update {A} (l : list A) (i : nat) (a : A) : list A :=
  match l, i with
  | [], _ => []
  | _ :: r, O => a :: r
  | x :: r, S j => x :: update r j a
  end.

(** [self.tableTemplate[i]] for an unsigned [i]. *)
Definition table (tt : list (list pystr)) (i : nat) : result (list pystr) :=
  getitem tt (Z.of_nat i).

(** The three [replace] calls on the sub-template of a data type. *)
Definition parameterize (offset n_sfdus : Z) (tpl : list pystr)
  : list pystr :=
  replace (py "<groups>") (py "0") true
    (replace (py "<records>") (PyInt.str n_sfdus) true
       (replace offset_marker (PyInt.str offset) false tpl)).

(** The last statement of the loop body: where the sub-template goes. *)
Definition insert_table (host sub : list pystr) : result (list pystr) :=
  if existsb (str_in (py "<Table_Binary>")) host then
    insert (py "</Table_Binary>") (PyList sub) (py "last") host
  else
    insert (py "</File>") (PyList sub) (py "last") host.

(** One turn of [for i in self.trk234_info.dataTypes]. *)
Definition fill_step (info : Info) (i : nat) (st : state) : result state :=
  n_sfdus <- numberDataTypes info i ;;
  tpl <- table (tableTemplate st) i ;;
  v <- read record_length_marker (py "first") tpl ;;
  n_bits <- PyInt.int v ;;
  let tpl' := parameterize (byte_location st) n_sfdus tpl in
  host' <- insert_table (Template st) tpl' ;;
  Ok {| byte_location := (byte_location st + n_bits * n_sfdus)%Z;
        Template := host';
        tableTemplate := update (tableTemplate st) i tpl' |}.

Fixpoint fill_loop (info : Info) (kinds : list nat) (st : state)
  : result state :=
  match kinds with
  | [] => Ok st
  | i :: rest => st' <- fill_step info i st ;; fill_loop info rest st'
  end.

(** The loop as [fill] starts it: [byte_location = 0]. *)
Definition fill_tables (info : Info) (host : list pystr)
  (tt : list (list pystr)) : result state :=
  fill_loop info (dataTypes info)
    {| byte_location := 0; Template := host; tableTemplate := tt |}.

End Label.

Import Label.

(** ** Vocabulary of the properties *)

(** [c in s] for a character. *)
Definition has_char (c : ascii) (s : pystr) : bool := existsb (Ascii.eqb c) s.

Definition is_empty (s : pystr) : bool :=
  match s with [] => true | _ :: _ => false end.

(** A key-value line: its first '>' comes before its last '<'. *)
Definition key_value_line (line : pystr) : bool :=
  ((0 <=? find gt line) && (find gt line <? rfind lt line))%Z.

(** [line] read as opening text [pre], the first '>', the value [mid], the
    last '<' and closing text [post]. *)
Definition splits_at_value (line pre mid post : pystr) : Prop :=
  line = pre ++ gt :: mid ++ lt :: post /\ ~ In gt pre /\ ~ In lt post.

(** [new] is [line] with the text strictly between its first '>' and its
    last '<' turned into [v], and every other character kept. *)
Definition rewritten (v line new : pystr) : Prop :=
  exists pre mid post,
    splits_at_value line pre mid post /\ new = pre ++ gt :: v ++ lt :: post.

(** [mid] is the text strictly between the first '>' and the last '<' of
    [line]. *)
Definition value_of (line mid : pystr) : Prop :=
  exists pre post, splits_at_value line pre mid post.

(** The text [replace] keeps of a line: up to the first '>' included, and
    from the last '<' on. *)
Definition kept_head (line : pystr) : pystr :=
  slice line None (Some (find gt line + 1)%Z).

Definition kept_tail (line : pystr) : pystr :=
  slice line (Some (rfind lt line)) None.

(** The values of the lines that contain the marker, in document order. *)
Definition values (m : pystr) (data : list pystr) : list pystr :=
  map found_value (filter (str_in m) data).

(** Whether [replace], run twice with the value [v], can be told to leave
    [line] as the first run made it: the line has both delimiters, or it is
    not empty and [v] has neither. *)
Definition settles (v line : pystr) : bool :=
  (has_char gt line && has_char lt line)
  || (negb (has_char gt v) && negb (has_char lt v) && negb (is_empty line)).

(** Data types listed in strictly ascending order. *)
Fixpoint ascending (kinds : list nat) : bool :=
  match kinds with
  | a :: (b :: _) as rest => (a <? b)%nat && ascending rest
  | _ => true
  end.



(** A sub-template with a place for the offset: its first line with the
    offset marker keeps the marker when [replace] rewrites it, the marker
    lying in the text up to the first '>' or in the text from the last '<'
    on, and holds neither [<records>] nor [<groups>], the markers of the
    two calls that follow. *)
Fixpoint offset_slot (tpl : list pystr) : bool :=
  match tpl with
  | [] => false
  | line :: rest =>
      if str_in offset_marker line then
        (str_in offset_marker (kept_head line)
         || str_in offset_marker (kept_tail line))
        && negb (str_in (py "<records>") line)
        && negb (str_in (py "<groups>") line)
      else offset_slot rest
  end.

(** ** Documents used as test inputs *)

Module Examples.

Definition nl : ascii := ascii_of_nat 10.

(** A line of a file: the text and its line feed. *)
Definition ln (s : string) : pystr := py s ++ [nl].

Definition product : list pystr :=
  [ ln "<Product>";
    ln "  <records>0</records>";
    ln "  <Table><records>0</records></Table>";
    ln "</Product>" ].

(** A line with a marker and no '>' at all. *)
Definition note : list pystr := [ ln "keep records < 10" ].

(** A line whose value is the marker text itself. *)
Definition named : list pystr := [ ln "<name>foo</name>" ].

(** A line with a '>' and no '<'. *)
Definition prompt : list pystr := [ py "a>bcd" ].

Definition host : list pystr :=
  [ ln "<File_Area>"; ln "<Table_Binary>"; ln "</Table_Binary>";
    ln "</File>" ].

Definition sub : list pystr := [ ln "<L1/>"; ln "<L2/>" ].

Definition offset_line (v : string) : pystr :=
  offset_marker ++ py v ++ ln "</offset>".

Definition record_length_line (v : string) : pystr :=
  record_length_marker ++ py v ++ ln "</record_length>".

(** A sub-template of a data type whose records are [len] bytes long. *)
Definition table_of (len : string) : list pystr :=
  [ ln "<Table_Binary>";
    offset_line "0";
    ln "<records>0</records>";
    ln "<groups>1</groups>";
    record_length_line len;
    ln "</Table_Binary>" ].

(** The eighteen sub-templates: type 2 has records of 20 bytes, type 5 of 8
    bytes. *)
Definition tables : list (list pystr) :=
  map (fun k => if (k =? 2)%nat then table_of "20"
                else if (k =? 5)%nat then table_of "8"
                else table_of "1") (seq 0 18).

(** A file with 5 records of type 2 and 100 records of type 5. *)
Definition info : Info :=
  {| dataTypes := [2; 5]%nat;
     numberDataTypes := fun k =>
       if (k =? 2)%nat then Ok 5%Z
       else if (k =? 5)%nat then Ok 100%Z
       else Raise KeyError |}.

Definition len (k : nat) : Z := if (k =? 2)%nat then 20%Z else 8%Z.
Definition cnt (k : nat) : Z := if (k =? 2)%nat then 5%Z else 100%Z.

Definition label : list pystr :=
  [ ln "<File_Area>"; ln "<File>"; ln "</File>"; ln "</File_Area>" ].

End Examples.

(** ** Files, as the engine and the utilities use them *)

(** From here on the model is of a POSIX system: [os.sep] is '/',
    [os.linesep] is the line feed, paths are those of [posixpath], and a file
    system holds regular files only, all of them readable and writable. The
    content of a file is its sequence of characters. *)

(** The failures of the code modelled below: those of the template engine,
    and two more. *)
Inductive failure : Set :=
| Raised (e : exn)
| AttributeError
| FileNotFoundError.

Inductive outcome (A : Type) : Type :=
| Returns (a : A)
| Fails (f : failure).

Arguments Returns {A} a.
Arguments Fails {A} f.

Definition lift {A} (r : result A) : outcome A :=
  match r with
  | Ok a => Returns a
  | Raise e => Fails (Raised e)
  end.

Definition and_then {A B} (r : outcome A) (k : A -> outcome B) : outcome B :=
  match r with
  | Returns a => k a
  | Fails f => Fails f
  end.

Notation "x <-- r ;; k" := (and_then r (fun x => k))
  (at level 61, r at next level, right associativity).

Module TextIO.

Definition lf : ascii := ascii_of_nat 10.
Definition cr : ascii := ascii_of_nat 13.

(** What a file opened with [open(name, 'r')] delivers: a carriage return,
    alone or followed by a line feed, is read as one line feed. *)
Fixpoint universal (s : pystr) : pystr :=
  match s with
  | [] => []
  | c :: r =>
      if Ascii.eqb c cr then
        lf :: match r with
              | c' :: r' => if Ascii.eqb c' lf then universal r'
                            else universal r
              | [] => []
              end
      else c :: universal r
  end.

(** [f.readlines()] on the text delivered: the lines, each with its line
    feed, the last one possibly without. *)
Fixpoint readlines (text : pystr) : list pystr :=
  match text with
  | [] => []
  | c :: r =>
      if Ascii.eqb c lf then [c] :: readlines r
      else match readlines r with
           | [] => [[c]]
           | l :: ls => (c :: l) :: ls
           end
  end.

(** A file system: the content of each path that names a file. *)
Definition fs : Type := pystr -> option pystr.

Definition fs_set (files : fs) (path : pystr) (v : option pystr) : fs :=
  fun q => if str_eqb q path then v else files q.

(** [open(path, 'r')] followed by [read()]. *)
Definition read_text (files : fs) (path : pystr) : outcome pystr :=
  match files path with
  | Some content => Returns (universal content)
  | None => Fails FileNotFoundError
  end.

(** [f.read(n)] on a file opened with ['rb'], with [rest] still to come:
    what is read, and what is left. With [-1] everything is read; a smaller
    [n] raises [ValueError], whatever is left in the file. *)
Definition file_read (n : Z) (rest : pystr) : result (pystr * pystr) :=
  if (n <? -1)%Z then Raise ValueError
  else if (n =? -1)%Z then Ok (rest, [])
  else Ok (firstn (Z.to_nat n) rest, skipn (Z.to_nat n) rest).

End TextIO.

Import TextIO.

(** ** [XML_Template]: loading, printing and writing *)

Module XML_File.

(** [__init__(filename)]: the lines of the file. *)
Definition init (files : fs) (filename : pystr) : outcome (list pystr) :=
  text <-- read_text files filename ;; Returns (readlines text).

(** [__str__()]: [''.join(self.data)]. *)
Definition to_str (data : list pystr) : pystr := concat data.

(** [write(out_filename)]: the file is opened for writing, which empties
    it, and the lines are written one after the other. *)
Definition write (files : fs) (out_filename : pystr) (data : list pystr)
  : fs :=
  fs_set files out_filename
    (Some (fold_left (fun written line => written ++ line) data [])).

End XML_File.

(** ** [pds4.util] *)

Module Util.

Definition slash : ascii := ascii_of_nat 47.
Definition dot : ascii := ascii_of_nat 46.

(** [os.path.basename(p)]: [p[p.rfind('/')+1:]]. *)
Definition basename (p : pystr) : pystr :=
  slice p (Some (rfind slash p + 1)%Z) None.

(** [s.rstrip('/')]. *)
Fixpoint lstrip_slash (s : pystr) : pystr :=
  match s with
  | c :: r => if Ascii.eqb c slash then lstrip_slash r else s
  | [] => []
  end.

Definition rstrip_slash (s : pystr) : pystr := rev (lstrip_slash (rev s)).

(** [os.path.split(p)[0]]: the head up to the last '/', without its
    trailing slashes unless it is made of slashes only. *)
Definition split_head (p : pystr) : pystr :=
  let head := slice p None (Some (rfind slash p + 1)%Z) in
  if negb (is_empty head) && negb (forallb (Ascii.eqb slash) head)
  then rstrip_slash head else head.

(** [s.split(c)[0]]: the text in front of the first [c]. *)
Fixpoint before_first (c : ascii) (s : pystr) : pystr :=
  match s with
  | [] => []
  | x :: r => if Ascii.eqb x c then [] else x :: before_first c r
  end.

(** [label_filename(filename)]. [abspath] stands for [os.path.abspath],
    which depends on the working directory of the process. *)
Definition label_filename (abspath : pystr -> pystr) (filename : pystr)
  : pystr :=
  split_head (abspath filename) ++ [slash]
    ++ before_first dot (basename filename) ++ py ".xml".

Definition inspect {A} (a : A) : {b : A | a = b} := exist _ a eq_refl.

(** The loop of [md5hashfile]: blocks are read and handed to the hasher
    until a read comes back empty. [fed] is all the hasher was given so
    far. A read that raises ends the loop with its exception. *)
Equations? feed (blocksize : Z) (rest fed : pystr) : result pystr
  by wf (length rest) Nat.lt :=
  feed blocksize rest fed with inspect (file_read blocksize rest) => {
    | exist _ (Raise x) _ := Raise x;
    | exist _ (Ok ([], _)) _ := Ok fed;
    | exist _ (Ok (b :: buf, rest')) e :=
        feed blocksize rest' (fed ++ b :: buf) }.
Proof.
  unfold file_read in e.
  destruct (blocksize <? -1)%Z; [discriminate e|].
  destruct (blocksize =? -1)%Z.
  - injection e as E1 E2. subst rest rest'. simpl. unfold Nat.lt. lia.
  - injection e as E1 E2. subst rest'. rewrite length_skipn.
    destruct (Z.to_nat blocksize); [discriminate E1|].
    destruct rest; [discriminate E1 | simpl; unfold Nat.lt; lia].
Qed.

(** [md5hashfile(filename, blocksize)]. [md5] stands for [hashlib]: the
    digest of everything a hasher was given, in the order given. *)
Definition md5hashfile (md5 : pystr -> pystr) (files : fs)
  (filename : pystr) (blocksize : Z) : outcome pystr :=
  match files filename with
  | Some content =>
      fed <-- lift (feed blocksize content []) ;; Returns (md5 fed)
  | None => Fails FileNotFoundError
  end.

(** [data.replace('\n', '\r\n')]. *)
Definition crlf (data : pystr) : pystr :=
  flat_map (fun c => if Ascii.eqb c lf then [cr; lf] else [c]) data.

(** [shutil.move(src, dst)] and [os.rename(src, dst)] between two paths of
    files: the content goes from [src] to [dst], which it replaces. *)
Definition move (files : fs) (src dst : pystr) : fs * outcome unit :=
  match files src with
  | Some content =>
      (fs_set (fs_set files src None) dst (Some content), Returns tt)
  | None => (files, Fails FileNotFoundError)
  end.

(** [os.path.getsize(path)]. *)
Definition getsize (files : fs) (path : pystr) : outcome Z :=
  match files path with
  | Some content => Returns (Z.of_nat (length content))
  | None => Fails FileNotFoundError
  end.

(** [NLtoCRLF(filename, copyfile)]: the file system afterwards, and how the
    call ended. *)
Definition NLtoCRLF (files : fs) (filename : pystr) (copyfile : bool)
  : fs * outcome unit :=
  let (files1, moved) :=
    if copyfile then move files filename (filename ++ py ".originalNL")
    else (files, Returns tt) in
  match moved with
  | Fails f => (files1, Fails f)
  | Returns _ =>
      match read_text files1 filename with
      | Fails f => (files1, Fails f)
      | Returns data =>
          (fs_set files1 filename (Some (crlf data)), Returns tt)
      end
  end.

End Util.

Import Util.

(** ** The label scripts *)

Module Scripts.

Definition colon : ascii := ascii_of_nat 58.

(** [s.rsplit(c, 1)[0]]: the text in front of the last [c], or all of [s]
    when it has none. *)
Definition rsplit_head (c : ascii) (s : pystr) : pystr :=
  if (rfind c s <? 0)%Z then s else slice s None (Some (rfind c s)).

(** [file_base] in [pds4.csp.py] and [pds4.olr.py]:
    [os.path.basename(name).split('.')[0]]. *)
Definition file_base (filename : pystr) : pystr :=
  before_first dot (basename filename).

Definition lid_marker : pystr := py "<logical_identifier>".

(** [old.rsplit(':',1)[0] + ':' + base]. *)
Definition new_lid (old base : pystr) : pystr :=
  rsplit_head colon old ++ colon :: base.

(** How the three label scripts set the logical identifier: it is read,
    its last component is replaced by [base], and the outcome is written
    back. What [read] returns must have [rsplit]. [base] is [file_base] in
    [pds4.csp.py] and [pds4.olr.py], and [file_base] in lower case in
    [Label.fill]. *)
Definition update_lid (base : pystr) (data : list pystr)
  : outcome (list pystr) :=
  v <-- lift (read lid_marker (py "first") data) ;;
  match v with
  | PyStr old => Returns (replace lid_marker (new_lid old base) false data)
  | _ => Fails AttributeError
  end.

(** One entry of [identifiers] in [pds4.inventory_update.py]:
    [lid + '::' + version]. *)
Definition identifier (data : list pystr) : outcome pystr :=
  lid <-- lift (read lid_marker (py "first") data) ;;
  version <-- lift (read (py "<version_id>") (py "first") data) ;;
  match lid, version with
  | PyStr a, PyStr b => Returns (a ++ py "::" ++ b)
  | _, _ => Fails (Raised TypeError)
  end.

End Scripts.

Import Scripts.

(** ** The sub-templates loaded by [Label.__init__] *)

Module LabelInit.

(** ['%02i' % i]. *)
Definition two_digits (i : nat) : pystr :=
  let s := PyInt.str (Z.of_nat i) in
  if (length s <? 2)%nat then py "0" ++ s else s.

(** The name of the file of the sub-template of a data type, in the
    configuration directory, whose absolute path is [config_abs]. *)
Definition table_file_name (config_abs : pystr) (i : nat) : pystr :=
  config_abs ++ [slash] ++ py "trk_TableBinary_SFDU_" ++ two_digits i
    ++ py ".xml".

(** The templates of the files named, loaded in order. *)
Fixpoint load_each (files : fs) (names : list pystr)
  : outcome (list (list pystr)) :=
  match names with
  | [] => Returns []
  | name :: rest =>
      tpl <-- XML_File.init files name ;;
      tpls <-- load_each files rest ;;
      Returns (tpl :: tpls)
  end.

(** [for i in range(0,18): self.tableTemplate.append(XML_Template(fn))]. *)
Definition load_tables (files : fs) (config_abs : pystr)
  : outcome (list (list pystr)) :=
  load_each files (map (table_file_name config_abs) (seq 0 18)).

End LabelInit.

(** ** [pds4.olr.py], from the renaming of the file on *)

Module Olr.

(** What [main] uses of [rdef_0222sci.Info], a collaborator outside this
    repository, with the texts that [strftime] and [str] make of its
    fields. *)
Record Info : Type := {
  start_text : pystr;          (* start_time.strftime('%Y-%m-%dT%H:%M:%SZ') *)
  end_text : pystr;            (* end_time.strftime('%Y-%m-%dT%H:%M:%SZ') *)
  record_length_text : pystr;  (* str(info.record_length) *)
  num_records_text : pystr;    (* str(info.num_records) *)
  bits : Z
}.

Definition file_size_marker : pystr :=
  py "<file_size unit=" ++ dquote :: py "byte" ++ dquote :: py ">".

(** The statements from the reading of the identifier to the check of
    the sample width. [today] is [datetime.now().strftime('%Y-%m-%d')],
    [md5] stands for [hashlib]. *)
Definition fill (md5 : pystr -> pystr) (today : pystr) (info : Info)
  (input : pystr) (files : fs) (data : list pystr)
  : outcome (list pystr) :=
  let base := file_base input in
  d1 <-- update_lid base data ;;
  let d2 := replace (py "<modification_date>") today false d1 in
  let d3 := replace (py "<start_date_time>") (start_text info) false d2 in
  let d4 := replace (py "<stop_date_time>") (end_text info) false d3 in
  let d5 := replace (py "<file_name>") input false d4 in
  let d6 := replace (py "<local_identifier>") base false d5 in
  let d7 := replace (py "<creation_date_time>") (end_text info) false d6 in
  sum <-- md5hashfile md5 files input 65536 ;;
  let d8 := replace (py "<md5_checksum>") sum false d7 in
  size <-- getsize files input ;;
  let d9 := replace file_size_marker (PyInt.str size) false d8 in
  let d10 :=
    replace record_length_marker (record_length_text info) false d9 in
  let d11 := replace (py "<records>") (num_records_text info) true d10 in
  if (bits info =? 16)%Z then Returns d11 else Fails (Raised ValueError).

(** [main], from [os.rename] on. [rename] is the new name made by
    [args.rename.format], if one was asked for. The outcome is the file
    system afterwards and how the run ended. *)
Definition main (md5 : pystr -> pystr) (abspath : pystr -> pystr)
  (today : pystr) (info : Info) (rename : option pystr)
  (template input : pystr) (files : fs) : fs * outcome unit :=
  let '(files1, renamed, input1) :=
    match rename with
    | Some new_filename =>
        let (fs1, r) := move files input new_filename in
        (fs1, r, new_filename)
    | None => (files, Returns tt, input)
    end in
  match renamed with
  | Fails f => (files1, Fails f)
  | Returns _ =>
      match (data <-- XML_File.init files1 template ;;
             fill md5 today info input1 files1 data) with
      | Fails f => (files1, Fails f)
      | Returns label =>
          (XML_File.write files1 (label_filename abspath input1) label,
           Returns tt)
      end
  end.

End Olr.

(** ** The scan of [pds4.csp.py] *)

Module Csp.

(** [s.find(sub)]: the lowest index at which [sub] starts, or -1. *)
Fixpoint find_str (sub s : pystr) {struct s} : Z :=
  if startswith sub s then 0%Z
  else match s with
       | [] => (-1)%Z
       | _ :: r => let k := find_str sub r in
                   if (k <? 0)%Z then (-1)%Z else (k + 1)%Z
       end.

Definition rparen : ascii := ascii_of_nat 41.

(** The text of a time between [key], which is [skip] characters long in
    the source, and the next ')':
    [s = line.find(key); e = s + line[s:].find(')'); line[s+skip:e]]. *)
Definition time_text (key : pystr) (skip : Z) (line : pystr) : pystr :=
  let s := find_str key line in
  let e := (s + find rparen (slice line (Some s) None))%Z in
  slice line (Some (s + skip)%Z) (Some e).

(** The format chosen by the length of the text. *)
Definition time_format (tstr : pystr) : pystr :=
  if (length tstr =? 14)%nat then py "%y/%m/%d,%H:%M"
  else if (length tstr =? 17)%nat then py "%y/%m/%d,%H:%M:%S"
  else py "%y/%m/%d,%H:%M:%S.%f".

Section Scan.

(** [datetime.strptime], which may raise, and its values. *)
Variable T : Type.
Variable strptime : pystr -> pystr -> outcome T.

(** The variables of the loop; a time that is not bound yet is [None]. *)
Record scan_state : Type := {
  start_time : option T;
  end_time : option T;
  n_records : Z;
  first : bool
}.

(** The body of [for line in f]. *)
Definition scan_line (line : pystr) (st : scan_state) : outcome scan_state :=
  st1 <--
    (if str_in (py "FROM") line && negb (first st) then
       let tstr := time_text (py "FROM(") 5 line in
       t <-- strptime tstr (time_format tstr) ;;
       Returns {| start_time := Some t; end_time := end_time st;
                  n_records := n_records st; first := true |}
     else Returns st) ;;
  st2 <--
    (if str_in (py "TO") line then
       let tstr := time_text (py "TO(") 3 line in
       t <-- strptime tstr (time_format tstr) ;;
       Returns {| start_time := start_time st1; end_time := Some t;
                  n_records := n_records st1; first := first st1 |}
     else Returns st1) ;;
  Returns {| start_time := start_time st2; end_time := end_time st2;
             n_records := (n_records st2 + 1)%Z; first := first st2 |}.

Fixpoint scan (lines : list pystr) (st : scan_state) : outcome scan_state :=
  match lines with
  | [] => Returns st
  | line :: rest => st' <-- scan_line line st ;; scan rest st'
  end.

(** The loop as [main] starts it. *)
Definition scan_file (lines : list pystr) : outcome scan_state :=
  scan lines {| start_time := None; end_time := None; n_records := 0;
                first := false |}.

End Scan.

End Csp.

(** ** Vocabulary of the further properties *)

Definition table_open : pystr := py "<Table_Binary>".
Definition table_close : pystr := py "</Table_Binary>".
Definition file_close : pystr := py "</File>".

(** A line that none of the three [replace] calls of the loop rewrites. *)
Definition untouched (line : pystr) : bool :=
  negb (str_in offset_marker line)
  && negb (str_in (py "<records>") line)
  && negb (str_in (py "<groups>") line).

(** A sub-template that is a table block: some line the loop does not
    rewrite holds [<Table_Binary>], and the last line, which the loop does
    not rewrite either, holds [</Table_Binary>]. *)
Definition wrapper (tpl : list pystr) : bool :=
  existsb (fun l => str_in table_open l && untouched l) tpl
  && match rev tpl with
     | closing :: _ => str_in table_close closing && untouched closing
     | [] => false
     end.

(** Lines that hold a table block up to their end. *)
Definition ends_wrapped (lines : list pystr) : Prop :=
  existsb (str_in table_open) lines = true /\
  exists body closing,
    lines = body ++ [closing] /\ str_in table_close closing = true.

(** The sub-templates of [kinds] as the loop leaves them, in the order of
    [kinds], when the counter starts at [offset]. *)
Fixpoint filled (len cnt : nat -> Z) (tt : list (list pystr)) (offset : Z)
  (kinds : list nat) : list (list pystr) :=
  match kinds with
  | [] => []
  | k :: rest =>
      match table tt k with
      | Ok tpl => parameterize offset (cnt k) tpl
      | Raise _ => []
      end :: filled len cnt tt (offset + len k * cnt k)%Z rest
  end.

(** The markers [pds4.olr.py] replaces. *)
Definition olr_markers : list pystr :=
  [ lid_marker; py "<modification_date>"; py "<start_date_time>";
    py "<stop_date_time>"; py "<file_name>"; py "<local_identifier>";
    py "<creation_date_time>"; py "<md5_checksum>"; Olr.file_size_marker;
    record_length_marker; py "<records>" ].

(** A template of two lines, as the text of its file. *)
Definition small_template : pystr :=
  concat Examples.named
    ++ py "<logical_identifier>urn:x:t" ++ Examples.ln "</logical_identifier>".

(** * Properties *)

(** ** Facts about [find], [rfind] and slices *)

Section StringFacts.

Lemma eqb_neq_false (a c : ascii) : a <> c -> Ascii.eqb a c = false.
Proof. intro H. apply Ascii.eqb_neq. exact H. Qed.

Lemma find_lower (c : ascii) (s : pystr) : (-1 <= find c s)%Z.
Proof.
  induction s as [|x r IH]; simpl; [lia|].
  destruct (Ascii.eqb x c); [lia|].
  destruct (find c r <? 0)%Z eqn:E; lia.
Qed.

Lemma find_none (c : ascii) (s : pystr) : ~ In c s -> find c s = (-1)%Z.
Proof.
  induction s as [|x r IH]; simpl; intro H; [reflexivity|].
  rewrite eqb_neq_false by (intro; apply H; now left).
  rewrite IH by (intro; apply H; now right). reflexivity.
Qed.

Lemma find_app_notin (c : ascii) (pre post : pystr) :
  ~ In c pre -> find c (pre ++ c :: post) = Z.of_nat (length pre).
Proof.
  induction pre as [|x r IH]; simpl; intro H.
  - now rewrite Ascii.eqb_refl.
  - rewrite eqb_neq_false by (intro; apply H; now left).
    rewrite IH by (intro; apply H; now right).
    destruct (Z.of_nat (length r) <? 0)%Z eqn:E; lia.
Qed.

(** Either the character is absent, or the string splits at its first
    occurrence. *)
Lemma find_cases (c : ascii) (s : pystr) :
  (find c s = (-1)%Z /\ ~ In c s) \/
  (exists pre post, s = pre ++ c :: post /\ ~ In c pre /\
                    find c s = Z.of_nat (length pre)).
Proof.
  induction s as [|x r IH].
  - left. simpl. split; [reflexivity | intros []].
  - destruct (ascii_dec x c) as [->|Hne].
    + right. exists [], r. simpl. rewrite Ascii.eqb_refl.
      repeat split. intros [].
    + destruct IH as [[Hf Hn] | (pre & post & -> & Hn & Hf)].
      * left. split.
        -- apply find_none. intros [H|H]; [now apply Hne | now apply Hn].
        -- intros [H|H]; [now apply Hne | now apply Hn].
      * right. exists (x :: pre), post. repeat split.
        -- intros [H|H]; [now apply Hne | now apply Hn].
        -- apply (find_app_notin c (x :: pre) post).
           intros [H|H]; [now apply Hne | now apply Hn].
Qed.

Lemma rfind_none (c : ascii) (s : pystr) : ~ In c s -> rfind c s = (-1)%Z.
Proof.
  induction s as [|x r IH]; simpl; intro H; [reflexivity|].
  rewrite IH by (intro; apply H; now right). simpl.
  now rewrite eqb_neq_false by (intro; apply H; now left).
Qed.

Lemma rfind_app_notin (c : ascii) (pre post : pystr) :
  ~ In c post -> rfind c (pre ++ c :: post) = Z.of_nat (length pre).
Proof.
  intro H. induction pre as [|x r IH]; simpl.
  - rewrite (rfind_none c post H). simpl. now rewrite Ascii.eqb_refl.
  - rewrite IH. destruct (0 <=? Z.of_nat (length r))%Z eqn:E; lia.
Qed.

(** Either the character is absent, or the string splits at its last
    occurrence. *)
Lemma rfind_cases (c : ascii) (s : pystr) :
  (rfind c s = (-1)%Z /\ ~ In c s) \/
  (exists pre post, s = pre ++ c :: post /\ ~ In c post /\
                    rfind c s = Z.of_nat (length pre)).
Proof.
  induction s as [|x r IH].
  - left. simpl. split; [reflexivity | intros []].
  - destruct IH as [[Hf Hn] | (pre & post & -> & Hn & Hf)].
    + destruct (ascii_dec x c) as [->|Hne].
      * right. exists [], r. repeat split; [exact Hn|].
        apply (rfind_app_notin c [] r Hn).
      * left. split.
        -- apply rfind_none. intros [H|H]; [now apply Hne | now apply Hn].
        -- intros [H|H]; [now apply Hne | now apply Hn].
    + right. exists (x :: pre), post. repeat split; [exact Hn|].
      apply (rfind_app_notin c (x :: pre) post Hn).
Qed.

Lemma clamp_nat (len n : nat) : (n <= len)%nat -> clamp len (Z.of_nat n) = n.
Proof.
  intro H. unfold clamp.
  destruct (Z.of_nat n <? 0)%Z eqn:E; lia.
Qed.

Lemma clamp_minus_one (len : nat) : clamp len (-1)%Z = (len - 1)%nat.
Proof. unfold clamp. change (-1 <? 0)%Z with true. cbv iota. lia. Qed.

Context {A : Type}.

Lemma slice_prefix (pre post : list A) :
  slice (pre ++ post) None (Some (Z.of_nat (length pre))) = pre.
Proof.
  unfold slice, bound_lo, bound_hi.
  rewrite clamp_nat by (rewrite length_app; lia).
  simpl skipn. rewrite Nat.sub_0_r.
  rewrite firstn_app, Nat.sub_diag, firstn_all. simpl. apply app_nil_r.
Qed.

Lemma slice_suffix (pre post : list A) :
  slice (pre ++ post) (Some (Z.of_nat (length pre))) None = post.
Proof.
  unfold slice, bound_lo, bound_hi.
  rewrite clamp_nat by (rewrite length_app; lia).
  rewrite skipn_app, Nat.sub_diag, skipn_all. simpl.
  rewrite length_app. replace (length pre + length post - length pre)%nat
    with (length post) by lia.
  apply firstn_all.
Qed.

Lemma slice_middle (pre mid post : list A) :
  slice (pre ++ mid ++ post) (Some (Z.of_nat (length pre)))
        (Some (Z.of_nat (length pre + length mid))) = mid.
Proof.
  unfold slice, bound_lo, bound_hi.
  rewrite !clamp_nat by (rewrite !length_app; lia).
  rewrite skipn_app, Nat.sub_diag, skipn_all. simpl.
  replace (length pre + length mid - length pre)%nat with (length mid) by lia.
  rewrite firstn_app, Nat.sub_diag, firstn_all. simpl. apply app_nil_r.
Qed.

Lemma slice_to_zero (s : list A) : slice s None (Some 0%Z) = [].
Proof.
  unfold slice, bound_lo, bound_hi.
  change 0%Z with (Z.of_nat 0). rewrite clamp_nat by lia. reflexivity.
Qed.

Lemma slice_last (r : list A) (c : A) :
  slice (r ++ [c]) (Some (-1)%Z) None = [c].
Proof.
  unfold slice, bound_lo, bound_hi. rewrite clamp_minus_one.
  rewrite length_app. simpl length.
  replace (length r + 1 - 1)%nat with (length r) by lia.
  rewrite skipn_app, Nat.sub_diag, skipn_all. simpl.
  replace (length r + 1 - length r)%nat with 1%nat by lia. reflexivity.
Qed.

Lemma slice_up_to_last (pre mid : list A) (c : A) :
  slice (pre ++ mid ++ [c]) (Some (Z.of_nat (length pre))) (Some (-1)%Z) = mid.
Proof.
  unfold slice, bound_lo, bound_hi. rewrite clamp_minus_one.
  rewrite clamp_nat by (rewrite !length_app; lia).
  rewrite skipn_app, Nat.sub_diag, skipn_all. simpl.
  rewrite !length_app. simpl length.
  replace (length pre + (length mid + 1) - 1 - length pre)%nat
    with (length mid) by lia.
  rewrite firstn_app, Nat.sub_diag, firstn_all. simpl. apply app_nil_r.
Qed.

Lemma app_same_length (a a' b b' : list A) :
  length a = length a' -> a ++ b = a' ++ b' -> a = a' /\ b = b'.
Proof.
  revert a'. induction a as [|x a IH]; intros [|x' a'] L E;
    simpl in *; try discriminate.
  - now split.
  - injection E as -> E. destruct (IH a') as [-> ->]; [lia | exact E |].
    now split.
Qed.

Lemma slice_incl (s : list A) (lo hi : option Z) (x : A) :
  In x (slice s lo hi) -> In x s.
Proof.
  unfold slice. intro H.
  rewrite <- (firstn_skipn (bound_lo (length s) lo) s).
  apply in_or_app. right.
  rewrite <- (firstn_skipn (bound_hi (length s) hi - bound_lo (length s) lo)
                (skipn (bound_lo (length s) lo) s)).
  apply in_or_app. now left.
Qed.

End StringFacts.

(** ** One line: what [replace] writes and what [read] takes *)

Section LineFacts.

Lemma has_char_In (c : ascii) (s : pystr) : has_char c s = true <-> In c s.
Proof.
  unfold has_char. rewrite existsb_exists. split.
  - intros (x & Hx & E). apply Ascii.eqb_eq in E. now subst.
  - intro H. exists c. split; [exact H | apply Ascii.eqb_refl].
Qed.

Lemma has_char_false (c : ascii) (s : pystr) :
  has_char c s = false <-> ~ In c s.
Proof.
  rewrite <- has_char_In. destruct (has_char c s); split; intro H;
    try reflexivity; try discriminate; try (intro; discriminate).
  exfalso. now apply H.
Qed.

Lemma splits_find (line pre mid post : pystr) :
  splits_at_value line pre mid post ->
  find gt line = Z.of_nat (length pre) /\
  rfind lt line = Z.of_nat (length pre + 1 + length mid).
Proof.
  intros (-> & Hgt & Hlt). split.
  - now apply find_app_notin.
  - change (pre ++ gt :: mid ++ lt :: post)
      with (pre ++ (gt :: mid) ++ lt :: post).
    rewrite app_assoc, rfind_app_notin by exact Hlt.
    rewrite length_app. simpl. f_equal. lia.
Qed.

Lemma splits_unique (line pre mid post pre' mid' post' : pystr) :
  splits_at_value line pre mid post ->
  splits_at_value line pre' mid' post' ->
  pre' = pre /\ mid' = mid /\ post' = post.
Proof.
  intros H H'.
  destruct (@splits_find _ _ _ _ H) as [F R].
  destruct (@splits_find _ _ _ _ H') as [F' R'].
  destruct H as (E & _), H' as (E' & _).
  rewrite E in E'.
  apply app_same_length in E' as [-> E']; [|lia].
  injection E' as E'.
  apply app_same_length in E' as [-> E']; [|lia].
  injection E' as ->. now repeat split.
Qed.

(** A key-value line does split. *)
Lemma key_value_line_splits (line : pystr) :
  key_value_line line = true ->
  exists pre mid post, splits_at_value line pre mid post.
Proof.
  unfold key_value_line. intro H.
  apply andb_true_iff in H as [H0 H1].
  apply Z.leb_le in H0. apply Z.ltb_lt in H1.
  destruct (find_cases gt line) as [[Hf _] | (pre & rest & E & Hgt & Hf)];
    [lia|].
  destruct (rfind_cases lt line) as [[Hr _] | (pre' & post & E' & Hlt & Hr)];
    [lia|].
  assert (L : (length pre < length pre')%nat) by lia.
  rewrite E in E'.
  apply app_eq_app in E' as (l & [[Ea Eb] | [Ea Eb]]).
  - exfalso. rewrite Ea, length_app in L. lia.
  - destruct l as [|x mid].
    + exfalso. rewrite Ea, app_nil_r in L. lia.
    + simpl in Eb. injection Eb as <- Eb.
      exists pre, mid, post. repeat split; [|exact Hgt|exact Hlt].
      now rewrite E, Eb.
Qed.

Lemma splits_key_value_line (line pre mid post : pystr) :
  splits_at_value line pre mid post -> key_value_line line = true.
Proof.
  intro H. destruct (@splits_find _ _ _ _ H) as [F R]. unfold key_value_line.
  rewrite F, R. apply andb_true_iff. split.
  - apply Z.leb_le. lia.
  - apply Z.ltb_lt. lia.
Qed.

Lemma replace_line_splits (v line pre mid post : pystr) :
  splits_at_value line pre mid post ->
  replace_line v line = pre ++ gt :: v ++ lt :: post.
Proof.
  intro H. destruct (@splits_find _ _ _ _ H) as [F R]. destruct H as (E & _).
  unfold replace_line. rewrite F, R. subst line.
  replace (Z.of_nat (length pre) + 1)%Z
    with (Z.of_nat (length (pre ++ [gt])))
    by (rewrite length_app; simpl; lia).
  replace (pre ++ gt :: mid ++ lt :: post)
    with ((pre ++ [gt]) ++ mid ++ lt :: post) at 1
    by (now rewrite <- app_assoc).
  rewrite slice_prefix.
  replace (length pre + 1 + length mid)%nat
    with (length (pre ++ gt :: mid))
    by (rewrite length_app; simpl; lia).
  replace (pre ++ gt :: mid ++ lt :: post)
    with ((pre ++ gt :: mid) ++ lt :: post)
    by (now rewrite <- app_assoc).
  rewrite slice_suffix. now rewrite <- app_assoc.
Qed.

Lemma found_value_splits (line pre mid post : pystr) :
  splits_at_value line pre mid post -> found_value line = mid.
Proof.
  intro H. destruct (@splits_find _ _ _ _ H) as [F R]. destruct H as (E & _).
  unfold found_value. rewrite F, R. subst line.
  replace (Z.of_nat (length pre) + 1)%Z
    with (Z.of_nat (length (pre ++ [gt])))
    by (rewrite length_app; simpl; lia).
  replace (length pre + 1 + length mid)%nat
    with (length (pre ++ [gt]) + length mid)%nat
    by (rewrite length_app; simpl; lia).
  replace (pre ++ gt :: mid ++ lt :: post)
    with ((pre ++ [gt]) ++ mid ++ lt :: post)
    by (now rewrite <- app_assoc).
  apply slice_middle.
Qed.

Lemma replace_line_kept (v line : pystr) :
  replace_line v line = kept_head line ++ v ++ kept_tail line.
Proof. reflexivity. Qed.

(** The kept head is empty, or it ends at the first '>'. *)
Lemma kept_head_cases (line : pystr) :
  (~ In gt line /\ kept_head line = []) \/
  (exists pre, ~ In gt pre /\ kept_head line = pre ++ [gt] /\
               forall x, In x pre -> In x line).
Proof.
  unfold kept_head.
  destruct (find_cases gt line) as [[Hf Hn] | (pre & rest & E & Hgt & Hf)].
  - left. rewrite Hf. split; [exact Hn | apply slice_to_zero].
  - right. exists pre. rewrite Hf. repeat split; [exact Hgt| |].
    + replace (Z.of_nat (length pre) + 1)%Z
        with (Z.of_nat (length (pre ++ [gt])))
        by (rewrite length_app; simpl; lia).
      rewrite E.
      replace (pre ++ gt :: rest) with ((pre ++ [gt]) ++ rest)
        by (now rewrite <- app_assoc).
      apply slice_prefix.
    + intros x Hx. rewrite E. apply in_or_app. now left.
Qed.

(** The kept tail starts at the last '<', or the line has none and the
    tail is its last character (nothing for the empty line). *)
Lemma kept_tail_cases (line : pystr) :
  (exists post, ~ In lt post /\ kept_tail line = lt :: post /\
                forall x, In x post -> In x line) \/
  (~ In lt line /\ line = [] /\ kept_tail line = []) \/
  (~ In lt line /\ exists c, In c line /\ kept_tail line = [c]).
Proof.
  unfold kept_tail.
  destruct (rfind_cases lt line) as [[Hf Hn] | (pre & post & E & Hlt & Hf)].
  - right. rewrite Hf. destruct line as [|a l].
    + left. now repeat split.
    + right. split; [exact Hn|].
      destruct (@exists_last _ (a :: l)) as (r & c & E); [discriminate|].
      exists c. rewrite E. split; [apply in_elt | apply slice_last].
  - left. exists post. rewrite Hf, E. repeat split; [exact Hlt| |].
    + apply slice_suffix.
    + intros x Hx. apply in_or_app. right. now right.
Qed.

(** In the line [replace] writes, the first '>' still closes the kept
    head. *)
Lemma find_gt_new (v line : pystr) :
  In gt line \/ ~ In gt v ->
  (find gt (kept_head line ++ v ++ kept_tail line) + 1)%Z
  = Z.of_nat (length (kept_head line)).
Proof.
  intro H.
  destruct (kept_head_cases line) as [[Hn ->] | (pre & Hgt & -> & _)].
  - destruct H as [H|H]; [contradiction|].
    simpl. rewrite find_none; [reflexivity|].
    intro Hin. apply in_app_or in Hin as [Hin|Hin]; [contradiction|].
    apply Hn. eapply slice_incl. exact Hin.
  - rewrite <- app_assoc. simpl.
    rewrite find_app_notin by exact Hgt.
    rewrite length_app. simpl. lia.
Qed.

(** In the line [replace] writes, the last '<' still opens the kept tail. *)
Lemma rfind_lt_new_present (v line : pystr) :
  In lt line ->
  rfind lt (kept_head line ++ v ++ kept_tail line)
  = Z.of_nat (length (kept_head line ++ v)).
Proof.
  intro H.
  destruct (kept_tail_cases line)
    as [(post & Hlt & E & _) | [(Hn & _) | (Hn & _)]]; try contradiction.
  rewrite E, app_assoc. now apply rfind_app_notin.
Qed.

Lemma rfind_lt_new_absent (v line : pystr) :
  ~ In lt line -> ~ In lt v ->
  rfind lt (kept_head line ++ v ++ kept_tail line) = (-1)%Z.
Proof.
  intros Hn Hv. apply rfind_none. intro Hin.
  apply in_app_or in Hin as [Hin|Hin].
  - apply Hn. eapply slice_incl. exact Hin.
  - apply in_app_or in Hin as [Hin|Hin]; [contradiction|].
    apply Hn. eapply slice_incl. exact Hin.
Qed.

Lemma kept_tail_absent (line : pystr) :
  ~ In lt line -> line <> [] -> exists c, kept_tail line = [c].
Proof.
  intros Hn Hne.
  destruct (kept_tail_cases line)
    as [(post & Hlt & E & Hin) | [(_ & E & _) | (_ & c & _ & E)]].
  - exfalso. apply Hn. eapply slice_incl. unfold kept_tail in E.
    rewrite E. now left.
  - contradiction.
  - now exists c.
Qed.

(** Where a second [replace] with the same value leaves the line alone. *)
Lemma replace_line_settled (v line : pystr) :
  settles v line = true ->
  replace_line v (replace_line v line) = replace_line v line.
Proof.
  unfold settles. intro H.
  assert (Hg : In gt line \/ ~ In gt v).
  { apply orb_true_iff in H as [H|H].
    - apply andb_true_iff in H as [H _]. left. now apply has_char_In.
    - apply andb_true_iff in H as [H _]. apply andb_true_iff in H as [H _].
      right. apply has_char_false. now apply negb_true_iff. }
  assert (Hl : In lt line \/ (~ In lt line /\ ~ In lt v /\ line <> [])).
  { destruct (has_char lt line) eqn:E.
    - left. now apply has_char_In.
    - right. apply has_char_false in E. split; [exact E|].
      rewrite andb_false_r in H. simpl in H.
      apply andb_true_iff in H as [H H3]. apply andb_true_iff in H as [_ H2].
      split.
      + apply has_char_false. now apply negb_true_iff.
      + intros ->. discriminate. }
  rewrite (replace_line_kept v line). unfold replace_line.
  rewrite (@find_gt_new v line Hg). rewrite slice_prefix.
  f_equal. f_equal.
  destruct Hl as [Hl | (Hn & Hv & Hne)].
  - rewrite (@rfind_lt_new_present v line Hl).
    rewrite app_assoc. apply slice_suffix.
  - rewrite (@rfind_lt_new_absent v line Hn Hv).
    destruct (@kept_tail_absent line Hn Hne) as (c & E). rewrite E.
    rewrite app_assoc. apply slice_last.
Qed.

(** Reading back the value [replace] wrote into a line. *)
Lemma found_value_replace_line (v line : pystr) :
  has_char gt v = false -> has_char lt v = false -> line <> [] ->
  found_value (replace_line v line) = v.
Proof.
  intros Hg Hl Hne. apply has_char_false in Hg, Hl.
  rewrite (replace_line_kept v line). unfold found_value.
  rewrite (@find_gt_new v line (or_intror Hg)).
  destruct (in_dec ascii_dec lt line) as [Hin|Hn].
  - rewrite (@rfind_lt_new_present v line Hin). rewrite length_app.
    apply slice_middle.
  - rewrite (@rfind_lt_new_absent v line Hn Hl).
    destruct (@kept_tail_absent line Hn Hne) as (c & ->).
    apply slice_up_to_last.
Qed.

End LineFacts.

(** ** [replace] on a document *)

Section ReplaceFacts.

Variables m v : pystr.

Lemma replace_no_match (one : bool) (data : list pystr) :
  existsb (str_in m) data = false -> replace m v one data = data.
Proof.
  induction data as [|l rest IH]; simpl; intro H; [reflexivity|].
  apply orb_false_iff in H as [H1 H2]. rewrite H1. f_equal. now apply IH.
Qed.

Lemma replace_all_map (data : list pystr) :
  replace m v false data
  = map (fun l => if str_in m l then replace_line v l else l) data.
Proof.
  induction data as [|l rest IH]; simpl; [reflexivity|].
  destruct (str_in m l); now rewrite IH.
Qed.

Lemma replace_one_first (pre post : list pystr) (line : pystr) :
  existsb (str_in m) pre = false -> str_in m line = true ->
  replace m v true (pre ++ line :: post) = pre ++ replace_line v line :: post.
Proof.
  intros Hpre Hl. induction pre as [|l rest IH]; simpl.
  - now rewrite Hl.
  - simpl in Hpre. apply orb_false_iff in Hpre as [H1 H2].
    rewrite H1. f_equal. now apply IH.
Qed.

Lemma replace_length (one : bool) (data : list pystr) :
  length (replace m v one data) = length data.
Proof.
  induction data as [|l rest IH]; simpl; [reflexivity|].
  destruct (str_in m l); simpl; [destruct one|]; now rewrite ?IH.
Qed.

(** What [replace] leaves at each position of the document. *)
Lemma replace_nth_error (one : bool) (data : list pystr) (i : nat)
  (line : pystr) :
  nth_error data i = Some line ->
  nth_error (replace m v one data) i
  = Some (if str_in m line
             && (negb one || negb (existsb (str_in m) (firstn i data)))
          then replace_line v line else line).
Proof.
  revert i. induction data as [|l rest IH]; intros [|j] H;
    simpl in H; try discriminate.
  - injection H as ->. simpl. rewrite orb_true_r, andb_true_r.
    now destruct (str_in m line).
  - simpl firstn. simpl existsb. simpl replace.
    destruct (str_in m l) eqn:E; simpl.
    + destruct one; simpl.
      * rewrite andb_false_r. exact H.
      * rewrite (IH j H). reflexivity.
    + apply (IH j H).
Qed.

End ReplaceFacts.

(** ** [read] and [insert] on a document *)

Section ScanFacts.

Variable m : pystr.

Lemma getitem_last {A} (l : list A) (x : A) :
  getitem (l ++ [x]) (-1)%Z = Ok x.
Proof.
  unfold getitem. change (-1 <? 0)%Z with true. cbv iota.
  rewrite length_app. simpl length.
  replace (-1 + Z.of_nat (length l + 1))%Z with (Z.of_nat (length l)) by lia.
  destruct (Z.ltb_spec (Z.of_nat (length l)) 0); [lia|].
  rewrite Nat2Z.id. rewrite nth_error_app2 by apply Nat.le_refl.
  now rewrite Nat.sub_diag.
Qed.

Lemma read_first_no_match (data val : list pystr) :
  existsb (str_in m) data = false ->
  read_loop m (py "first") data val = Ok PyNone.
Proof.
  induction data as [|l rest IH]; intro H; [reflexivity|].
  simpl in H. apply orb_false_iff in H as [H1 H2].
  simpl. rewrite H1. now apply IH.
Qed.

Lemma read_first_skip (pre rest val : list pystr) :
  existsb (str_in m) pre = false ->
  read_loop m (py "first") (pre ++ rest) val
  = read_loop m (py "first") rest val.
Proof.
  induction pre as [|l pre IH]; intro H; [reflexivity|].
  simpl in H. apply orb_false_iff in H as [H1 H2].
  simpl. rewrite H1. now apply IH.
Qed.

Lemma read_first_found (pre post : list pystr) (line : pystr) :
  existsb (str_in m) pre = false -> str_in m line = true ->
  read m (py "first") (pre ++ line :: post) = Ok (PyStr (found_value line)).
Proof.
  intros Hpre Hl. unfold read. rewrite read_first_skip by exact Hpre.
  simpl. now rewrite Hl.
Qed.

(** With a [searchtype] other than 'first' the loop collects the values of
    all matching lines, in order, behind what it was given. *)
Lemma read_collect (st : pystr) (data val : list pystr) :
  str_eqb st (py "first") = false ->
  read_loop m st data val = read_loop m st [] (val ++ values m data).
Proof.
  intro Hst. revert val.
  induction data as [|l rest IH]; intro val.
  - unfold values. simpl filter. simpl map. now rewrite app_nil_r.
  - change (read_loop m st (l :: rest) val)
      with (if str_in m l
            then if str_eqb st (py "first") then Ok (PyStr (found_value l))
                 else read_loop m st rest (val ++ [found_value l])
            else read_loop m st rest val).
    unfold values. simpl filter. destruct (str_in m l) eqn:E.
    + rewrite Hst, IH. simpl map. now rewrite <- app_assoc.
    + apply IH.
Qed.

Lemma values_no_match (data : list pystr) :
  existsb (str_in m) data = false -> values m data = [].
Proof.
  unfold values. induction data as [|l rest IH]; simpl; intro H;
    [reflexivity|].
  apply orb_false_iff in H as [H1 H2]. rewrite H1. now apply IH.
Qed.

Lemma match_indices_no_match (i : Z) (data : list pystr) :
  existsb (str_in m) data = false -> match_indices m i data = [].
Proof.
  revert i. induction data as [|l rest IH]; simpl; intros i H;
    [reflexivity|].
  apply orb_false_iff in H as [H1 H2]. rewrite H1. now apply IH.
Qed.

Lemma match_indices_app (i : Z) (pre rest : list pystr) :
  match_indices m i (pre ++ rest)
  = match_indices m i pre
    ++ match_indices m (i + Z.of_nat (length pre))%Z rest.
Proof.
  revert i. induction pre as [|l pre IH]; intro i; simpl.
  - now rewrite Z.add_0_r.
  - rewrite IH.
    replace (i + 1 + Z.of_nat (length pre))%Z
      with (i + Z.pos (Pos.of_succ_nat (length pre)))%Z by lia.
    now destruct (str_in m l).
Qed.

Lemma match_indices_some (i : Z) (data : list pystr) :
  existsb (str_in m) data = true -> match_indices m i data <> [].
Proof.
  revert i. induction data as [|l rest IH]; simpl; intros i H;
    [discriminate|].
  destruct (str_in m l); [discriminate | now apply IH].
Qed.

(** A document with a matching line splits at the first one. *)
Lemma first_match_split (data : list pystr) :
  existsb (str_in m) data = true ->
  exists pre a post, data = pre ++ a :: post /\
    existsb (str_in m) pre = false /\ str_in m a = true.
Proof.
  induction data as [|l rest IH]; simpl; intro H; [discriminate|].
  destruct (str_in m l) eqn:E.
  - exists [], l, rest. now repeat split.
  - destruct (IH H) as (pre & a & post & -> & Hp & Ha).
    exists (l :: pre), a, post. repeat split; [|exact Ha].
    simpl. now rewrite E.
Qed.

(** A document with a matching line splits at the last one. *)
Lemma last_match_split (data : list pystr) :
  existsb (str_in m) data = true ->
  exists pre a post, data = pre ++ a :: post /\
    existsb (str_in m) post = false /\ str_in m a = true.
Proof.
  induction data as [|l rest IH]; simpl; intro H; [discriminate|].
  destruct (existsb (str_in m) rest) eqn:E.
  - destruct (IH eq_refl) as (pre & a & post & -> & Hp & Ha).
    exists (l :: pre), a, post. now repeat split.
  - rewrite orb_false_r in H. exists [], l, rest. now repeat split.
Qed.

Lemma slice_assign_after {A} (pre post c : list A) (a : A) :
  slice_assign (pre ++ a :: post) (Some (Z.of_nat (length pre) + 1)%Z)
    (Some (Z.of_nat (length pre) + 1)%Z) c
  = pre ++ a :: c ++ post.
Proof.
  unfold slice_assign, bound_lo, bound_hi.
  replace (Z.of_nat (length pre) + 1)%Z
    with (Z.of_nat (length (pre ++ [a])))
    by (rewrite length_app; simpl; lia).
  replace (pre ++ a :: post) with ((pre ++ [a]) ++ post)
    by (now rewrite <- app_assoc).
  rewrite clamp_nat by (rewrite !length_app; lia).
  rewrite Nat.max_id.
  rewrite firstn_app, Nat.sub_diag, firstn_all. simpl firstn.
  rewrite skipn_app, Nat.sub_diag, skipn_all. simpl.
  now rewrite app_nil_r, <- app_assoc.
Qed.

Lemma insert_no_match (c : pyval) (location : pystr) (data : list pystr) :
  existsb (str_in m) data = false -> insert m c location data = Ok data.
Proof.
  intro H. unfold insert. now rewrite match_indices_no_match.
Qed.

Lemma insert_first_at (c pre post : list pystr) (a : pystr) :
  existsb (str_in m) pre = false -> str_in m a = true ->
  insert m (PyList c) (py "first") (pre ++ a :: post)
  = Ok (pre ++ a :: c ++ post).
Proof.
  intros Hp Ha. unfold insert.
  rewrite match_indices_app, match_indices_no_match by exact Hp.
  simpl. rewrite Ha. simpl. now rewrite slice_assign_after.
Qed.

Lemma insert_last_at (c pre post : list pystr) (a : pystr) :
  existsb (str_in m) post = false -> str_in m a = true ->
  insert m (PyList c) (py "last") (pre ++ a :: post)
  = Ok (pre ++ a :: c ++ post).
Proof.
  intros Hp Ha. unfold insert.
  rewrite match_indices_app. simpl match_indices. rewrite Ha.
  rewrite (@match_indices_no_match _ post Hp).
  change (0 + Z.of_nat (length pre))%Z with (Z.of_nat (length pre)).
  cbv zeta.
  replace (length (match_indices m 0 pre ++ [Z.of_nat (length pre)]) =? 0)%nat
    with false by (rewrite length_app, Nat.add_comm; reflexivity).
  change (str_eqb (py "last") (py "last")) with true. cbv iota.
  rewrite getitem_last. simpl bind.
  now rewrite slice_assign_after.
Qed.

End ScanFacts.

(** ** The template engine, claim by claim *)

Lemma rewritten_key_value (v line new : pystr) :
  rewritten v line new -> key_value_line line = true.
Proof.
  intros (pre & mid & post & H & _).
  exact (@splits_key_value_line line pre mid post H).
Qed.

Lemma key_value_rewritten (v line : pystr) :
  key_value_line line = true -> rewritten v line (replace_line v line).
Proof.
  intro H. destruct (@key_value_line_splits line H) as (pre & mid & post & S).
  exists pre, mid, post. split; [exact S|].
  exact (@replace_line_splits v line pre mid post S).
Qed.

(** C1 (as amended). [replace] keeps the length of the document and leaves
    it as it is when no line contains the marker. A line is rewritten when
    it contains the marker and, with [replace_one], no earlier line does;
    every other line is kept. A rewritten line whose first '>' comes before
    its last '<' gets the new value strictly between the two, all its other
    characters being kept. *)
Theorem replace_rewrites_value (m v : pystr) (one : bool)
  (data : list pystr) :
  (existsb (str_in m) data = false -> replace m v one data = data) /\
  length (replace m v one data) = length data /\
  (forall i line, nth_error data i = Some line ->
   exists line', nth_error (replace m v one data) i = Some line' /\
     if str_in m line
        && (negb one || negb (existsb (str_in m) (firstn i data)))
     then key_value_line line = true -> rewritten v line line'
     else line' = line).
Proof.
  split; [apply replace_no_match|]. split; [apply replace_length|].
  intros i line H. eexists. split; [apply replace_nth_error, H|].
  destruct (str_in m line
            && (negb one || negb (existsb (str_in m) (firstn i data)))).
  - apply key_value_rewritten.
  - reflexivity.
Qed.

Lemma replace_rewrites_value_witness :
  nth_error Examples.product 1 = Some (Examples.ln "  <records>0</records>")
  /\ key_value_line (Examples.ln "  <records>0</records>") = true
  /\ exists line',
       nth_error (replace (py "<records>") (py "42") true Examples.product) 1
       = Some line'
       /\ rewritten (py "42") (Examples.ln "  <records>0</records>") line'.
Proof.
  split; [reflexivity|]. split; [reflexivity|].
  destruct (proj2 (proj2 (replace_rewrites_value (py "<records>") (py "42")
                            true Examples.product))
              1%nat (Examples.ln "  <records>0</records>") eq_refl)
    as (line' & H1 & H2).
  exists line'. split; [exact H1 | exact (H2 eq_refl)].
Defined.

(** C1 as first stated fails: a line that contains the marker and has no
    '>' loses the text in front of its '<', which is not the rewriting of a
    value between the two delimiters. *)
Lemma replace_drops_text_without_gt :
  nth_error Examples.note 0 = Some (Examples.ln "keep records < 10") /\
  str_in (py "records") (Examples.ln "keep records < 10") = true /\
  nth_error (replace (py "records") (py "42") false Examples.note) 0
  = Some (Examples.ln "42< 10") /\
  ~ rewritten (py "42") (Examples.ln "keep records < 10")
      (Examples.ln "42< 10").
Proof.
  repeat split; try reflexivity.
  intro R. apply rewritten_key_value in R. discriminate R.
Qed.

(** C10. [replace] never changes the number of lines, whatever the lines
    hold. *)
Theorem replace_preserves_line_count (m v : pystr) (one : bool)
  (data : list pystr) :
  length (replace m v one data) = length data.
Proof. apply replace_length. Qed.

(** C9 (as amended). When each line containing the marker has both a '>'
    and a '<', or is not empty while the value has neither, a second
    [replace] with the same value changes nothing. *)
Theorem replace_twice (m v : pystr) (data : list pystr) :
  forallb (fun l => negb (str_in m l) || settles v l) data = true ->
  replace m v false (replace m v false data) = replace m v false data.
Proof.
  induction data as [|l rest IH]; simpl; intro H; [reflexivity|].
  apply andb_true_iff in H as [Hl Hrest].
  destruct (str_in m l) eqn:E; simpl in Hl |- *.
  - rewrite (IH Hrest).
    destruct (str_in m (replace_line v l)); [|reflexivity].
    now rewrite replace_line_settled.
  - now rewrite E, (IH Hrest).
Qed.

Lemma replace_twice_witness :
  forallb (fun l => negb (str_in (py "<records>") l) || settles (py "42") l)
    Examples.product = true
  /\ replace (py "<records>") (py "42") false
       (replace (py "<records>") (py "42") false Examples.product)
     = replace (py "<records>") (py "42") false Examples.product.
Proof.
  split; [reflexivity|].
  apply (replace_twice (py "<records>") (py "42") Examples.product).
  reflexivity.
Defined.

(** C9 as first stated fails: on a line without '<', a value that holds a
    '<' moves the cut of the second run. *)
Lemma replace_twice_differs :
  replace (py "a") (py "<") false Examples.prompt = [py "a><d"] /\
  replace (py "a") (py "<") false
    (replace (py "a") (py "<") false Examples.prompt) = [py "a><<d"] /\
  replace (py "a") (py "<") false
    (replace (py "a") (py "<") false Examples.prompt)
  <> replace (py "a") (py "<") false Examples.prompt.
Proof.
  split; [reflexivity|]. split; [reflexivity|].
  vm_compute. discriminate.
Qed.

(** C4 (as amended). When exactly one line contains the marker and its
    first '>' comes before its last '<', [read] with 'first' returns the
    text strictly between the two. *)
Theorem read_first_unique_line (m : pystr) (before after : list pystr)
  (line : pystr) :
  existsb (str_in m) before = false ->
  existsb (str_in m) after = false ->
  str_in m line = true ->
  key_value_line line = true ->
  exists mid, value_of line mid /\
    read m (py "first") (before ++ line :: after) = Ok (PyStr mid).
Proof.
  intros Hb _ Hl Hkv.
  destruct (@key_value_line_splits line Hkv) as (pre & mid & post & S).
  exists mid. split; [now exists pre, post|].
  rewrite (@read_first_found m before after line Hb Hl).
  now rewrite (@found_value_splits line pre mid post S).
Qed.

Lemma read_first_unique_line_witness :
  exists mid,
    value_of (Examples.ln "  <records>0</records>") mid /\
    read (py "  <records>") (py "first") Examples.product = Ok (PyStr mid).
Proof.
  apply (@read_first_unique_line (py "  <records>")
           [Examples.ln "<Product>"]
           [Examples.ln "  <Table><records>0</records></Table>";
            Examples.ln "</Product>"]
           (Examples.ln "  <records>0</records>"));
    reflexivity.
Defined.

(** C4 as first stated fails: the only line of the document contains the
    marker and has no '<', so there is no text between a first '>' and a
    last '<'; [read] returns the line behind its '>' less its last
    character. *)
Lemma read_first_without_lt :
  Examples.prompt = [] ++ py "a>bcd" :: [] /\
  str_in (py "a") (py "a>bcd") = true /\
  read (py "a") (py "first") Examples.prompt = Ok (PyStr (py "bc")) /\
  forall mid, ~ value_of (py "a>bcd") mid.
Proof.
  repeat split; try reflexivity.
  intros mid (pre & post & S).
  apply splits_key_value_line in S. discriminate S.
Qed.

(** C6. With no line containing the marker, [read] with 'first' ends
    without raising and hands back [None]. *)
Theorem read_first_missing_returns_none (m : pystr) (data : list pystr) :
  existsb (str_in m) data = false ->
  read m (py "first") data = Ok PyNone.
Proof. intro H. unfold read. now apply read_first_no_match. Qed.

Lemma read_first_missing_returns_none_witness :
  existsb (str_in (py "<md5_checksum>")) Examples.product = false /\
  read (py "<md5_checksum>") (py "first") Examples.product = Ok PyNone.
Proof.
  split; [reflexivity|].
  apply (read_first_missing_returns_none (py "<md5_checksum>")
           Examples.product).
  reflexivity.
Defined.



(** *** The round trip of [replace] and [read] *)

Lemma startswith_nil (m : pystr) : startswith m [] = true -> m = [].
Proof. destruct m; [reflexivity | discriminate]. Qed.

Lemma str_in_empty_marker (s : pystr) : str_in [] s = true.
Proof. destruct s; reflexivity. Qed.

Lemma startswith_app (m a b : pystr) :
  startswith m a = true -> startswith m (a ++ b) = true.
Proof.
  revert a. induction m as [|x m IH]; intros [|y a] H; simpl in *;
    try reflexivity; try discriminate.
  apply andb_true_iff in H as [H1 H2]. rewrite H1. simpl. now apply IH.
Qed.

Lemma str_in_app_l (m a b : pystr) :
  str_in m a = true -> str_in m (a ++ b) = true.
Proof.
  induction a as [|x a IH]; simpl; intro H.
  - apply startswith_nil in H. subst m. apply str_in_empty_marker.
  - apply orb_true_iff in H as [H|H].
    + change (x :: a ++ b) with ((x :: a) ++ b).
      now rewrite (startswith_app _ _ b H).
    + rewrite (IH H). apply orb_true_r.
Qed.

Lemma str_in_app_r (m a b : pystr) :
  str_in m b = true -> str_in m (a ++ b) = true.
Proof.
  intro H. induction a as [|x a IH]; simpl; [exact H|].
  rewrite IH. apply orb_true_r.
Qed.

(** A marker inside the text that [replace] keeps of a line is still there
    afterwards. *)
Lemma replace_line_keeps_marker (m v line : pystr) :
  str_in m (kept_head line) = true \/ str_in m (kept_tail line) = true ->
  str_in m (replace_line v line) = true.
Proof.
  rewrite replace_line_kept. intros [H|H].
  - now apply str_in_app_l.
  - now apply str_in_app_r, str_in_app_r.
Qed.

(** Hence a marker inside the kept text of some line that contains it is
    still found in the document after [replace]. *)
Lemma replace_keeps_marker_somewhere (m v line : pystr)
  (data : list pystr) :
  In line data -> str_in m line = true ->
  str_in m (kept_head line) = true \/ str_in m (kept_tail line) = true ->
  existsb (str_in m) (replace m v false data) = true.
Proof.
  intros Hin Hm Hk. apply existsb_exists. exists (replace_line v line).
  split; [|now apply replace_line_keeps_marker].
  rewrite replace_all_map. apply in_map_iff. exists line.
  split; [now rewrite Hm | exact Hin].
Qed.

Lemma read_after_replace (m v : pystr) (data : list pystr) :
  has_char gt v = false -> has_char lt v = false ->
  (forall l, In l data -> str_in m l = true -> l <> []) ->
  existsb (str_in m) (replace m v false data) = true ->
  read_loop m (py "first") (replace m v false data) [] = Ok (PyStr v).
Proof.
  intros Hg Hl. induction data as [|l rest IH]; intros Hne H;
    [discriminate|].
  simpl replace in *. destruct (str_in m l) eqn:E.
  - simpl in H |- *. destruct (str_in m (replace_line v l)) eqn:E2.
    + rewrite (@found_value_replace_line v l Hg Hl); [reflexivity|].
      apply Hne; [now left | exact E].
    + apply IH; [|exact H]. intros l' Hin. apply Hne. now right.
  - simpl in H |- *. rewrite E in H |- *.
    apply IH; [|exact H]. intros l' Hin. apply Hne. now right.
Qed.

(** C5 (as amended). For a value without '>' and '<', when no empty line
    contains the marker and the marker is still found in some line after
    [replace], [read] with 'first' then returns the value; and [replace]
    keeps every line that does not contain the marker. *)
Theorem replace_then_read_first (m v : pystr) (data : list pystr) :
  has_char gt v = false -> has_char lt v = false ->
  m <> [] \/ ~ In [] data ->
  existsb (str_in m) (replace m v false data) = true ->
  read m (py "first") (replace m v false data) = Ok (PyStr v) /\
  (forall i line, nth_error data i = Some line -> str_in m line = false ->
     nth_error (replace m v false data) i = Some line).
Proof.
  intros Hg Hl Hne H. split.
  - apply read_after_replace; try assumption.
    intros l Hin Hm ->. destruct Hne as [Hne|Hne]; [|now apply Hne].
    apply Hne. simpl in Hm. now apply startswith_nil.
  - intros i line Hi Hm. rewrite (@replace_nth_error m v false data i line Hi).
    now rewrite Hm.
Qed.

Lemma replace_then_read_first_witness :
  read (py "<records>") (py "first")
    (replace (py "<records>") (py "42") false Examples.product)
  = Ok (PyStr (py "42")) /\
  (forall i line, nth_error Examples.product i = Some line ->
     str_in (py "<records>") line = false ->
     nth_error (replace (py "<records>") (py "42") false Examples.product) i
     = Some line).
Proof.
  apply (@replace_then_read_first (py "<records>") (py "42")
           Examples.product).
  - reflexivity.
  - reflexivity.
  - left. discriminate.
  - reflexivity.
Defined.

(** C5 as first stated fails: a marker that is the value itself is gone
    after [replace], and [read] finds nothing. *)
Lemma replace_removes_marker_in_value :
  has_char gt (py "bar") = false /\ has_char lt (py "bar") = false /\
  existsb (str_in (py "foo")) Examples.named = true /\
  replace (py "foo") (py "bar") false Examples.named
  = [Examples.ln "<name>bar</name>"] /\
  read (py "foo") (py "first")
    (replace (py "foo") (py "bar") false Examples.named) = Ok PyNone /\
  read (py "foo") (py "first")
    (replace (py "foo") (py "bar") false Examples.named)
  <> Ok (PyStr (py "bar")).
Proof.
  repeat split; try reflexivity.
  vm_compute. discriminate.
Qed.

(** *** [insert] *)

(** Where the lines are once [c] stands behind the anchor [a]. *)
Lemma nth_error_inserted {A} (pre post c : list A) (a : A) :
  (forall i, (i <= length pre)%nat ->
     nth_error (pre ++ a :: c ++ post) i = nth_error (pre ++ a :: post) i) /\
  (forall j, (j < length c)%nat ->
     nth_error (pre ++ a :: c ++ post) (length pre + 1 + j) = nth_error c j) /\
  (forall j,
     nth_error (pre ++ a :: c ++ post) (length pre + 1 + length c + j)
     = nth_error (pre ++ a :: post) (length pre + 1 + j)).
Proof.
  repeat split.
  - intros i Hi. rewrite !nth_error_app.
    destruct (Nat.ltb_spec i (length pre)); [reflexivity|].
    replace (i - length pre)%nat with 0%nat by lia. reflexivity.
  - intros j Hj. rewrite nth_error_app2 by lia.
    replace (length pre + 1 + j - length pre)%nat with (S j) by lia.
    simpl. now apply nth_error_app1.
  - intro j. rewrite !nth_error_app2 by lia.
    replace (length pre + 1 + length c + j - length pre)%nat
      with (S (length c + j)) by lia.
    replace (length pre + 1 + j - length pre)%nat with (S j) by lia.
    simpl. rewrite nth_error_app2 by lia. f_equal. lia.
Qed.

(** C3. With a list of [n] lines and the position 'first' or 'last',
    [insert] leaves a document without the marker as it is; otherwise the
    document splits at its anchor, the first or the last line containing
    the marker, and the result is the part up to the anchor, the [n] lines
    in their order, and the part behind the anchor: [n] lines longer, the
    lines up to the anchor in place, the lines behind it [n] places down. *)
Theorem insert_after_anchor (m : pystr) (content : list pystr)
  (location : pystr) (data : list pystr) :
  location = py "first" \/ location = py "last" ->
  (existsb (str_in m) data = false ->
   insert m (PyList content) location data = Ok data) /\
  (existsb (str_in m) data = true ->
   exists pre anchor post new,
     data = pre ++ anchor :: post /\
     str_in m anchor = true /\
     (location = py "first" -> existsb (str_in m) pre = false) /\
     (location = py "last" -> existsb (str_in m) post = false) /\
     insert m (PyList content) location data = Ok new /\
     new = pre ++ anchor :: content ++ post /\
     length new = (length data + length content)%nat /\
     (forall i, (i <= length pre)%nat -> nth_error new i = nth_error data i) /\
     (forall j, (j < length content)%nat ->
        nth_error new (length pre + 1 + j) = nth_error content j) /\
     (forall j, nth_error new (length pre + 1 + length content + j)
                = nth_error data (length pre + 1 + j))).
Proof.
  intro Hloc. split; [apply insert_no_match|]. intro H.
  assert (Hsplit : exists pre anchor post,
             data = pre ++ anchor :: post /\ str_in m anchor = true /\
             (location = py "first" -> existsb (str_in m) pre = false) /\
             (location = py "last" -> existsb (str_in m) post = false) /\
             insert m (PyList content) location data
             = Ok (pre ++ anchor :: content ++ post)).
  { destruct Hloc as [-> | ->].
    - destruct (@first_match_split m data H) as (pre & a & post & -> & Hp & Ha).
      exists pre, a, post.
      split; [reflexivity|]. split; [exact Ha|]. split; [now intros _|].
      split; [discriminate|]. now apply insert_first_at.
    - destruct (@last_match_split m data H) as (pre & a & post & -> & Hp & Ha).
      exists pre, a, post.
      split; [reflexivity|]. split; [exact Ha|]. split; [discriminate|].
      split; [now intros _|]. now apply insert_last_at. }
  destruct Hsplit as (pre & a & post & -> & Ha & Hf & Hl & Hins).
  exists pre, a, post, (pre ++ a :: content ++ post).
  destruct (nth_error_inserted pre post content a) as (P1 & P2 & P3).
  repeat split; try assumption.
  rewrite !length_app. simpl. rewrite length_app. lia.
Qed.

Lemma insert_after_anchor_witness :
  exists pre anchor post new,
    Examples.product = pre ++ anchor :: post /\
    str_in (py "<records>") anchor = true /\
    (py "last" = py "first" -> existsb (str_in (py "<records>")) pre = false)
    /\ (py "last" = py "last" ->
        existsb (str_in (py "<records>")) post = false) /\
    insert (py "<records>") (PyList Examples.sub) (py "last") Examples.product
    = Ok new /\
    new = pre ++ anchor :: Examples.sub ++ post /\
    length new = (length Examples.product + length Examples.sub)%nat /\
    (forall i, (i <= length pre)%nat ->
       nth_error new i = nth_error Examples.product i) /\
    (forall j, (j < length Examples.sub)%nat ->
       nth_error new (length pre + 1 + j) = nth_error Examples.sub j) /\
    (forall j, nth_error new (length pre + 1 + length Examples.sub + j)
               = nth_error Examples.product (length pre + 1 + j)).
Proof.
  apply (proj2 (@insert_after_anchor (py "<records>") Examples.sub (py "last")
                  Examples.product (or_intror eq_refl))).
  reflexivity.
Defined.

(** *** Where [fill] puts a sub-template *)

(** C8 (as amended). In a host document that ends with the opening line of
    the table wrapper, its closing line and the closing line of the file,
    the sub-template goes right behind the line with [</Table_Binary>],
    that is between that line and the line with [</File>]. *)
Theorem insert_table_after_wrapper (pre sub : list pystr)
  (opening closing file_end : pystr) :
  str_in (py "<Table_Binary>") opening = true ->
  str_in (py "</Table_Binary>") closing = true ->
  str_in (py "</Table_Binary>") file_end = false ->
  insert_table (pre ++ [opening; closing; file_end]) sub
  = Ok (pre ++ [opening; closing] ++ sub ++ [file_end]) /\
  insert (py "</Table_Binary>") (PyList sub) (py "last")
    (pre ++ [opening; closing; file_end])
  = Ok (pre ++ [opening; closing] ++ sub ++ [file_end]).
Proof.
  intros Ho Hc Hf.
  assert (Hins : insert (py "</Table_Binary>") (PyList sub) (py "last")
                   (pre ++ [opening; closing; file_end])
                 = Ok (pre ++ [opening; closing] ++ sub ++ [file_end])).
  { change (pre ++ [opening; closing; file_end])
      with (pre ++ [opening] ++ closing :: [file_end]).
    rewrite app_assoc.
    rewrite (@insert_last_at (py "</Table_Binary>") sub (pre ++ [opening])
               [file_end] closing).
    - now rewrite <- app_assoc.
    - cbn [existsb]. now rewrite Hf.
    - exact Hc. }
  split; [|exact Hins].
  unfold insert_table. rewrite existsb_app. cbn [existsb]. rewrite Ho.
  rewrite orb_true_r. exact Hins.
Qed.

Lemma insert_table_after_wrapper_witness :
  insert_table Examples.host Examples.sub
  = Ok [ Examples.ln "<File_Area>"; Examples.ln "<Table_Binary>";
         Examples.ln "</Table_Binary>"; Examples.ln "<L1/>";
         Examples.ln "<L2/>"; Examples.ln "</File>" ].
Proof.
  apply (proj1 (@insert_table_after_wrapper [Examples.ln "<File_Area>"]
                  Examples.sub (Examples.ln "<Table_Binary>")
                  (Examples.ln "</Table_Binary>") (Examples.ln "</File>")
                  eq_refl eq_refl eq_refl)).
Defined.

(** C8 as first stated fails: the sub-template goes behind the line with
    [</Table_Binary>], not in front of it. *)
Lemma insert_table_not_before_wrapper_end :
  insert_table Examples.host Examples.sub
  = Ok [ Examples.ln "<File_Area>"; Examples.ln "<Table_Binary>";
         Examples.ln "</Table_Binary>"; Examples.ln "<L1/>";
         Examples.ln "<L2/>"; Examples.ln "</File>" ] /\
  insert_table Examples.host Examples.sub
  <> Ok [ Examples.ln "<File_Area>"; Examples.ln "<Table_Binary>";
          Examples.ln "<L1/>"; Examples.ln "<L2/>";
          Examples.ln "</Table_Binary>"; Examples.ln "</File>" ].
Proof.
  split; [reflexivity|]. vm_compute. discriminate.
Qed.

(** ** The table loop of [fill] *)

Section TableLoop.

Variable info : Info.

(** The record length and the record count of each data type. *)
Variables len cnt : nat -> Z.

Lemma table_nth_error (tt : list (list pystr)) (i : nat) :
  table tt i = match nth_error tt i with
               | Some tpl => Ok tpl
               | None => Raise IndexError
               end.
Proof.
  unfold table, getitem. cbv zeta.
  destruct (Z.ltb_spec (Z.of_nat i) 0) as [Hneg|_]; [lia|].
  destruct (Z.ltb_spec (Z.of_nat i) 0) as [Hneg|_]; [lia|].
  now rewrite Nat2Z.id.
Qed.


Lemma nth_error_update_other {A} (l : list A) (i k : nat) (y : A) :
  i <> k -> nth_error (update l i y) k = nth_error l k.
Proof.
  revert i k. induction l as [|a l IH]; intros [|i] [|k] H; simpl;
    try reflexivity; [contradiction | apply IH; congruence].
Qed.


Lemma table_update_other (tt : list (list pystr)) (i k : nat)
  (tpl' : list pystr) :
  i <> k -> table (update tt i tpl') k = table tt k.
Proof.
  intro H. rewrite !table_nth_error. now rewrite nth_error_update_other.
Qed.

(** A sub-template without the record length: [read] hands [None] to
    [int], and it is [int] that raises, in [fill]. *)
Lemma fill_step_without_record_length (i : nat) (st : state) (n : Z)
  (tpl : list pystr) :
  numberDataTypes info i = Ok n ->
  table (tableTemplate st) i = Ok tpl ->
  existsb (str_in record_length_marker) tpl = false ->
  fill_step info i st = Raise TypeError.
Proof.
  intros Hn Ht Hm. unfold fill_step.
  rewrite Hn. cbn [bind]. rewrite Ht. cbn [bind].
  unfold read. rewrite (@read_first_no_match record_length_marker tpl [] Hm).
  reflexivity.
Qed.



Lemma ascending_tail (k : nat) (rest : list nat) :
  ascending (k :: rest) = true ->
  ascending rest = true /\ forall k', In k' rest -> (k < k')%nat.
Proof.
  revert k. induction rest as [|b rest IH]; intros k H.
  - split; [reflexivity | intros k' []].
  - change (((k <? b)%nat && ascending (b :: rest)) = true) in H.
    apply andb_true_iff in H as [H1 H2]. apply Nat.ltb_lt in H1.
    split; [exact H2|].
    destruct (IH b H2) as [_ Hb].
    intros k' [<-|Hin]; [exact H1|]. specialize (Hb k' Hin). lia.
Qed.



End TableLoop.

(** ** The decimal text of an integer *)

Section DecimalText.















End DecimalText.

(** ** Markers and values that share no character *)











(** ** The offset of a sub-template, written and read back *)







(** A sub-template without such a place: on a line that ends with
    [<records>] the second call puts the record count where the first one
    put the offset, and it is the count that [read] finds behind the
    offset marker. *)
Example offset_overwritten_by_count :
  offset_slot [offset_marker ++ py "0<records>"] = false /\
  read offset_marker (py "first")
    (parameterize 100 5 [offset_marker ++ py "0<records>"])
  = Ok (PyStr (py "5")).
Proof. split; vm_compute; reflexivity. Qed.

(** The scenario of two data types, run: the offsets read back from the
    two sub-templates are 0 and 100, the record counts 5 and 100, and the
    groups are set to 0. *)
Example fill_scenario_runs :
  (st <- fill_tables Examples.info Examples.label Examples.tables ;;
   t2 <- table (tableTemplate st) 2 ;;
   t5 <- table (tableTemplate st) 5 ;;
   Ok (t2, t5, byte_location st))
  = Ok ([ Examples.ln "<Table_Binary>";
          Examples.offset_line "0";
          Examples.ln "<records>5</records>";
          Examples.ln "<groups>0</groups>";
          Examples.record_length_line "20";
          Examples.ln "</Table_Binary>" ],
        [ Examples.ln "<Table_Binary>";
          Examples.offset_line "100";
          Examples.ln "<records>100</records>";
          Examples.ln "<groups>0</groups>";
          Examples.record_length_line "8";
          Examples.ln "</Table_Binary>" ],
        900%Z).
Proof. vm_compute. reflexivity. Qed.

(** The host document of the scenario afterwards: the first sub-template
    stands behind the line with [</File>], the second behind the last line
    with [</Table_Binary>]. *)
Example fill_scenario_host :
  (st <- fill_tables Examples.info Examples.label Examples.tables ;;
   Ok (Template st))
  = Ok ([ Examples.ln "<File_Area>"; Examples.ln "<File>";
          Examples.ln "</File>" ]
        ++ parameterize 0 5 (Examples.table_of "20")
        ++ parameterize 100 100 (Examples.table_of "8")
        ++ [ Examples.ln "</File_Area>" ]).
Proof. vm_compute. reflexivity. Qed.

(** The line of the specification's scenario for [replace_one]: only the
    first line with the marker is rewritten. *)
Example replace_one_scenario :
  replace (py "<records>") (py "42") true Examples.product
  = [ Examples.ln "<Product>";
      Examples.ln "  <records>42</records>";
      Examples.ln "  <Table><records>0</records></Table>";
      Examples.ln "</Product>" ].
Proof. vm_compute. reflexivity. Qed.

(** * Further properties of the code *)

(** ** More on [read] and [insert] *)

Lemma str_eqb_refl (a : pystr) : str_eqb a a = true.
Proof.
  induction a as [|x a IH]; simpl; [reflexivity|].
  now rewrite Ascii.eqb_refl, IH.
Qed.

Lemma str_eqb_eq (a b : pystr) : str_eqb a b = true -> a = b.
Proof.
  revert b. induction a as [|x a IH]; intros [|y b] H; simpl in H;
    try discriminate; [reflexivity|].
  apply andb_true_iff in H as [H1 H2].
  apply Ascii.eqb_eq in H1. subst y. f_equal. now apply IH.
Qed.

Lemma str_eqb_neq (a b : pystr) : a <> b -> str_eqb a b = false.
Proof.
  intro H. destruct (str_eqb a b) eqn:E; [|reflexivity].
  exfalso. apply H. now apply str_eqb_eq.
Qed.

Lemma values_cons (m l : pystr) (rest : list pystr) :
  values m (l :: rest)
  = if str_in m l then found_value l :: values m rest else values m rest.
Proof. unfold values. simpl. now destruct (str_in m l). Qed.

Lemma values_app (m : pystr) (a b : list pystr) :
  values m (a ++ b) = values m a ++ values m b.
Proof. unfold values. now rewrite filter_app, map_app. Qed.

Lemma read_first_values (m : pystr) (data val : list pystr) :
  read_loop m (py "first") data val
  = Ok (match values m data with [] => PyNone | v :: _ => PyStr v end).
Proof.
  induction data as [|l rest IH]; [reflexivity|].
  rewrite values_cons. simpl. destruct (str_in m l); [reflexivity | exact IH].
Qed.

(** What [read] returns depends on the document through the values of the
    matching lines only. *)
Lemma read_by_values (m st : pystr) (data : list pystr) :
  read m st data
  = if str_eqb st (py "first")
    then Ok (match values m data with [] => PyNone | v :: _ => PyStr v end)
    else read_loop m st [] (values m data).
Proof.
  unfold read. destruct (str_eqb st (py "first")) eqn:E.
  - apply str_eqb_eq in E. subst st. apply read_first_values.
  - now rewrite read_collect by exact E.
Qed.

(** X1. [read] with 'first' returns the first of the values that [read]
    with 'all' returns, and [None] when that list is empty. *)
Theorem read_first_is_first_of_all (m : pystr) (data : list pystr) :
  exists vals,
    read m (py "all") data = Ok (PyList vals) /\
    read m (py "first") data
    = Ok (match vals with [] => PyNone | v :: _ => PyStr v end).
Proof.
  exists (values m data). split.
  - now rewrite read_by_values.
  - now rewrite read_by_values.
Qed.

(** X2. With a [searchtype] other than 'first', 'all' and 'last', [read]
    returns [None] whatever the document holds: the [IOError] of the last
    branch is never raised. *)
Theorem read_other_searchtype_returns_none (m st : pystr)
  (data : list pystr) :
  str_eqb st (py "first") = false ->
  str_eqb st (py "all") = false ->
  str_eqb st (py "last") = false ->
  read m st data = Ok PyNone.
Proof.
  intros H1 H2 H3. rewrite read_by_values, H1.
  cbn [read_loop]. now rewrite H2, H3.
Qed.

Lemma read_other_searchtype_returns_none_witness :
  read (py "<records>") (py "First") Examples.product = Ok PyNone.
Proof.
  apply (@read_other_searchtype_returns_none (py "<records>") (py "First")
           Examples.product); reflexivity.
Defined.

Lemma insert_str_as_list (m s loc : pystr) (data : list pystr) :
  insert m (PyStr s) loc data = insert m (PyList [s]) loc data.
Proof.
  unfold insert. cbv zeta.
  destruct (length (match_indices m 0 data) =? 0)%nat; [reflexivity|].
  destruct (if str_eqb loc (py "last")
            then i <- getitem (match_indices m 0 data) (-1)%Z ;; Ok (Some i)
            else if str_eqb loc (py "first")
                 then i <- getitem (match_indices m 0 data) 0%Z ;; Ok (Some i)
                 else Ok None) as [[i|]|e]; reflexivity.
Qed.

Lemma insert_unknown_location_picks_nothing (m loc : pystr) (c : pyval)
  (data : list pystr) :
  str_eqb loc (py "last") = false -> str_eqb loc (py "first") = false ->
  existsb (str_in m) data = true ->
  insert m c loc data
  = match c with
    | PyList _ | PyStr _ => Raise TypeError
    | _ => Ok data
    end.
Proof.
  intros H1 H2 H. unfold insert. cbv zeta. rewrite H1, H2.
  pose proof (@match_indices_some m 0%Z data H) as Hne.
  destruct (match_indices m 0 data) as [|i ind]; [contradiction|].
  simpl. now destruct c.
Qed.

(** X3. With a [location] other than 'last' and 'first', [insert] raises
    [TypeError] (not the [SyntaxError] it builds) when some line contains
    the marker and the content is a list or a string; when no line does, it
    leaves the document as it is. *)
Theorem insert_unknown_location (m loc : pystr) (c : list pystr)
  (s : pystr) (data : list pystr) :
  str_eqb loc (py "last") = false -> str_eqb loc (py "first") = false ->
  if existsb (str_in m) data
  then insert m (PyList c) loc data = Raise TypeError /\
       insert m (PyStr s) loc data = Raise TypeError
  else insert m (PyList c) loc data = Ok data /\
       insert m (PyStr s) loc data = Ok data.
Proof.
  intros H1 H2. destruct (existsb (str_in m) data) eqn:E.
  - split; now rewrite insert_unknown_location_picks_nothing.
  - split; now apply insert_no_match.
Qed.

Lemma insert_unknown_location_witness :
  insert (py "<records>") (PyList Examples.sub) (py "after") Examples.product
  = Raise TypeError /\
  insert (py "<records>") (PyStr (py "x")) (py "after") Examples.product
  = Raise TypeError.
Proof.
  apply (@insert_unknown_location (py "<records>") (py "after") Examples.sub
           (py "x") Examples.product); reflexivity.
Defined.

(** X4. A string given to [insert] becomes one line of the document,
    whatever it holds: with 'first' or 'last' and a line containing the
    marker, the document grows by exactly one element, which stands right
    behind the anchor. *)
Theorem insert_string_is_one_line (m s loc : pystr) (data : list pystr) :
  loc = py "first" \/ loc = py "last" ->
  existsb (str_in m) data = true ->
  exists pre anchor post,
    data = pre ++ anchor :: post /\
    str_in m anchor = true /\
    insert m (PyStr s) loc data = Ok (pre ++ anchor :: s :: post) /\
    length (pre ++ anchor :: s :: post) = S (length data).
Proof.
  intros Hloc H. rewrite insert_str_as_list.
  destruct Hloc as [-> | ->].
  - destruct (@first_match_split m data H) as (pre & a & post & -> & Hp & Ha).
    exists pre, a, post. split; [reflexivity|]. split; [exact Ha|]. split.
    + now rewrite insert_first_at.
    + rewrite !length_app. simpl. lia.
  - destruct (@last_match_split m data H) as (pre & a & post & -> & Hp & Ha).
    exists pre, a, post. split; [reflexivity|]. split; [exact Ha|]. split.
    + now rewrite insert_last_at.
    + rewrite !length_app. simpl. lia.
Qed.

Lemma insert_string_is_one_line_witness :
  exists pre anchor post,
    Examples.product = pre ++ anchor :: post /\
    str_in (py "<Product>") anchor = true /\
    insert (py "<Product>") (PyStr (Examples.ln "a" ++ Examples.ln "b"))
      (py "first") Examples.product
    = Ok (pre ++ anchor :: (Examples.ln "a" ++ Examples.ln "b") :: post) /\
    length (pre ++ anchor :: (Examples.ln "a" ++ Examples.ln "b") :: post)
    = S (length Examples.product).
Proof.
  apply (@insert_string_is_one_line (py "<Product>")
           (Examples.ln "a" ++ Examples.ln "b") (py "first")
           Examples.product (or_introl eq_refl)).
  reflexivity.
Defined.

Lemma values_after_replace (m v : pystr) (data : list pystr) :
  has_char gt v = false -> has_char lt v = false ->
  (forall l, In l data -> str_in m l = true -> l <> []) ->
  values m (replace m v false data)
  = repeat v (length (filter (str_in m) (replace m v false data))).
Proof.
  intros Hg Hl. induction data as [|l rest IH]; intro Hne; [reflexivity|].
  assert (Hrest : forall l', In l' rest -> str_in m l' = true -> l' <> [])
    by (intros l' Hin; apply Hne; now right).
  simpl replace. destruct (str_in m l) eqn:E.
  - rewrite values_cons. simpl filter.
    destruct (str_in m (replace_line v l)) eqn:E2.
    + rewrite (@found_value_replace_line v l Hg Hl)
        by (apply Hne; [now left | exact E]).
      simpl. f_equal. now apply IH.
    + now apply IH.
  - rewrite values_cons. simpl filter. rewrite E. now apply IH.
Qed.

(** X5. After [replace] with a value that has no '>' and no '<', on a
    document where no empty line contains the marker, [read] with 'all'
    returns that value once for each line that still contains the marker,
    and nothing else. *)
Theorem read_all_after_replace (m v : pystr) (data : list pystr) :
  has_char gt v = false -> has_char lt v = false ->
  m <> [] \/ ~ In [] data ->
  read m (py "all") (replace m v false data)
  = Ok (PyList
          (repeat v (length (filter (str_in m) (replace m v false data))))).
Proof.
  intros Hg Hl Hne. rewrite read_by_values.
  change (str_eqb (py "all") (py "first")) with false. cbv iota.
  cbn [read_loop]. change (str_eqb (py "all") (py "all")) with true.
  cbv iota. do 2 f_equal. apply values_after_replace; try assumption.
  intros l Hin Hm ->. destruct Hne as [Hne|Hne]; [|now apply Hne].
  apply Hne. simpl in Hm. now apply startswith_nil.
Qed.

Lemma read_all_after_replace_witness :
  read (py "<records>") (py "all")
    (replace (py "<records>") (py "42") false Examples.product)
  = Ok (PyList [py "42"]).
Proof.
  apply (@read_all_after_replace (py "<records>") (py "42")
           Examples.product).
  - reflexivity.
  - reflexivity.
  - left. discriminate.
Defined.

(** The document after [insert] with a list: as before, or the list set in
    behind one of its lines. *)
Lemma insert_shape (m loc : pystr) (c data new : list pystr) :
  insert m (PyList c) loc data = Ok new ->
  new = data \/
  exists pre a post, data = pre ++ a :: post /\ new = pre ++ a :: c ++ post.
Proof.
  intro H. destruct (existsb (str_in m) data) eqn:E.
  - right. destruct (str_eqb loc (py "last")) eqn:E1.
    + apply str_eqb_eq in E1. subst loc.
      destruct (@last_match_split m data E) as (pre & a & post & -> & Hp & Ha).
      rewrite (@insert_last_at m c pre post a Hp Ha) in H.
      injection H as <-. now exists pre, a, post.
    + destruct (str_eqb loc (py "first")) eqn:E2.
      * apply str_eqb_eq in E2. subst loc.
        destruct (@first_match_split m data E)
          as (pre & a & post & -> & Hp & Ha).
        rewrite (@insert_first_at m c pre post a Hp Ha) in H.
        injection H as <-. now exists pre, a, post.
      * rewrite (@insert_unknown_location_picks_nothing m loc (PyList c) data
                   E1 E2 E) in H. discriminate H.
  - left. rewrite (@insert_no_match m (PyList c) loc data E) in H.
    now injection H.
Qed.

(** X6. Lines that do not contain a marker can be inserted anywhere without
    changing what [read] returns for that marker, in any of its modes. *)
Theorem insert_keeps_other_reads (m m' loc : pystr)
  (c data new : list pystr) :
  existsb (str_in m') c = false ->
  insert m (PyList c) loc data = Ok new ->
  forall st, read m' st new = read m' st data.
Proof.
  intros Hc H st. rewrite !read_by_values.
  assert (Hv : values m' new = values m' data).
  { destruct (insert_shape _ _ _ _ H) as [-> | (pre & a & post & -> & ->)];
      [reflexivity|].
    change (pre ++ a :: c ++ post) with (pre ++ [a] ++ c ++ post).
    change (pre ++ a :: post) with (pre ++ [a] ++ post).
    rewrite !values_app. now rewrite (@values_no_match m' c Hc). }
  now rewrite Hv.
Qed.

Lemma insert_keeps_other_reads_witness :
  insert (py "<Product>") (PyList Examples.sub) (py "first") Examples.product
  = Ok [ Examples.ln "<Product>"; Examples.ln "<L1/>"; Examples.ln "<L2/>";
         Examples.ln "  <records>0</records>";
         Examples.ln "  <Table><records>0</records></Table>";
         Examples.ln "</Product>" ] /\
  read (py "<records>") (py "all")
    [ Examples.ln "<Product>"; Examples.ln "<L1/>"; Examples.ln "<L2/>";
      Examples.ln "  <records>0</records>";
      Examples.ln "  <Table><records>0</records></Table>";
      Examples.ln "</Product>" ]
  = read (py "<records>") (py "all") Examples.product.
Proof.
  split; [reflexivity|].
  apply (@insert_keeps_other_reads (py "<Product>") (py "<records>")
           (py "first") Examples.sub Examples.product); reflexivity.
Defined.

(** ** Loading and writing a template *)

Lemma universal_without_cr (s : pystr) : ~ In cr s -> universal s = s.
Proof.
  induction s as [|c r IH]; intro H; [reflexivity|].
  simpl. rewrite eqb_neq_false by (intro E; apply H; now left).
  f_equal. apply IH. intro Hin. apply H. now right.
Qed.

Lemma universal_no_cr_upto (n : nat) : forall s,
  (length s <= n)%nat -> ~ In cr (universal s).
Proof.
  induction n as [|n IH]; intros s Hlen.
  - destruct s; [intros [] | simpl in Hlen; lia].
  - destruct s as [|c r]; [intros []|]. simpl in Hlen. simpl.
    destruct (Ascii.eqb c cr) eqn:E.
    + intros [Hin|Hin]; [discriminate Hin|].
      destruct r as [|c' r']; [exact Hin|].
      destruct (Ascii.eqb c' lf).
      * apply (@IH r'); [simpl in Hlen; lia | exact Hin].
      * apply (@IH (c' :: r')); [lia | exact Hin].
    + intros [Hin|Hin].
      * subst c. now rewrite Ascii.eqb_refl in E.
      * apply (@IH r); [lia | exact Hin].
Qed.

Lemma universal_no_cr (s : pystr) : ~ In cr (universal s).
Proof. apply (@universal_no_cr_upto (length s) s). apply Nat.le_refl. Qed.

Lemma concat_readlines (text : pystr) : concat (readlines text) = text.
Proof.
  induction text as [|c r IH]; [reflexivity|].
  simpl. destruct (Ascii.eqb c lf).
  - simpl. now rewrite IH.
  - destruct (readlines r) as [|l ls]; simpl in *; now rewrite <- IH.
Qed.

Lemma readlines_nonempty (text : pystr) : ~ In [] (readlines text).
Proof.
  induction text as [|c r IH]; [intros []|].
  simpl. destruct (Ascii.eqb c lf).
  - intros [H|H]; [discriminate | now apply IH].
  - destruct (readlines r) as [|l ls].
    + intros [H|[]]. discriminate.
    + intros [H|H]; [discriminate|]. apply IH. now right.
Qed.

(** A line feed stands at the end of a line only. *)
Lemma readlines_lf_last (text : pystr) :
  forall l, In l (readlines text) -> ~ In lf (removelast l).
Proof.
  induction text as [|c r IH]; [intros l []|].
  pose proof (readlines_nonempty r) as Hne.
  simpl. destruct (Ascii.eqb c lf) eqn:E.
  - intros l [<-|H]; [intros [] | now apply IH].
  - destruct (readlines r) as [|l0 ls].
    + intros l [<-|[]]. intros [].
    + intros l [<-|H].
      * destruct l0 as [|x l0]; [exfalso; apply Hne; now left|].
        change (removelast (c :: x :: l0)) with (c :: removelast (x :: l0)).
        intros [Hc|Hin].
        -- subst c. now rewrite Ascii.eqb_refl in E.
        -- apply (IH (x :: l0)); [now left | exact Hin].
      * apply IH. now right.
Qed.

(** Every line but the last ends with a line feed. *)
Lemma readlines_terminated (text : pystr) :
  forall l, In l (removelast (readlines text)) -> exists body, l = body ++ [lf].
Proof.
  induction text as [|c r IH]; [intros l []|].
  simpl. destruct (Ascii.eqb c lf) eqn:E.
  - apply Ascii.eqb_eq in E. subst c.
    destruct (readlines r) as [|l0 ls]; [intros l []|].
    intros l [<-|H]; [now exists [] | now apply IH].
  - destruct (readlines r) as [|l0 ls]; [intros l []|].
    destruct ls as [|l1 ls]; [intros l []|].
    intros l [<-|H].
    + destruct (IH l0 (or_introl eq_refl)) as (body & ->).
      now exists (c :: body).
    + apply IH. now right.
Qed.

Lemma fold_left_app_concat (data : list pystr) (written : pystr) :
  fold_left (fun w line => w ++ line) data written = written ++ concat data.
Proof.
  revert written. induction data as [|l rest IH]; intro w; simpl.
  - now rewrite app_nil_r.
  - now rewrite IH, app_assoc.
Qed.

Lemma fs_set_same (files : fs) (path : pystr) (v : option pystr) :
  fs_set files path v path = v.
Proof. unfold fs_set. now rewrite str_eqb_refl. Qed.

Lemma fs_set_other (files : fs) (path q : pystr) (v : option pystr) :
  q <> path -> fs_set files path v q = files q.
Proof. intro H. unfold fs_set. now rewrite str_eqb_neq. Qed.

(** X7. A template that is loaded and written out with no edit in between
    comes out as the text of the file read with universal newlines, which
    is the file itself when it has no carriage return. The lines loaded are
    never empty, hold no carriage return, hold a line feed at their end
    only, and all but the last do end with one. *)
Theorem load_then_write (files : fs) (filename out : pystr)
  (content : pystr) :
  files filename = Some content ->
  exists data,
    XML_File.init files filename = Returns data /\
    XML_File.to_str data = universal content /\
    XML_File.write files out data out = Some (universal content) /\
    (~ In cr content ->
     XML_File.write files out data out = Some content) /\
    ~ In [] data /\
    (forall l, In l data -> ~ In cr l /\ ~ In lf (removelast l)) /\
    (forall l, In l (removelast data) -> exists body, l = body ++ [lf]).
Proof.
  intro H. exists (readlines (universal content)).
  assert (Hw : XML_File.write files out (readlines (universal content)) out
               = Some (universal content)).
  { unfold XML_File.write. rewrite fs_set_same, fold_left_app_concat.
    simpl. now rewrite concat_readlines. }
  split; [unfold XML_File.init, read_text; now rewrite H|].
  split; [apply concat_readlines|]. split; [exact Hw|].
  split; [intro Hcr; now rewrite Hw, universal_without_cr|].
  split; [apply readlines_nonempty|]. split.
  - intros l Hl. split; [|now apply (readlines_lf_last (universal content))].
    intro Hin. apply (universal_no_cr content).
    rewrite <- (concat_readlines (universal content)).
    apply in_concat. now exists l.
  - apply readlines_terminated.
Qed.

Lemma load_then_write_witness :
  exists data,
    XML_File.init (fun _ => Some (concat Examples.product)) (py "t.xml")
    = Returns data /\
    XML_File.to_str data = universal (concat Examples.product) /\
    XML_File.write (fun _ => Some (concat Examples.product)) (py "o.xml")
      data (py "o.xml")
    = Some (universal (concat Examples.product)) /\
    (~ In cr (concat Examples.product) ->
     XML_File.write (fun _ => Some (concat Examples.product)) (py "o.xml")
       data (py "o.xml")
     = Some (concat Examples.product)) /\
    ~ In [] data /\
    (forall l, In l data -> ~ In cr l /\ ~ In lf (removelast l)) /\
    (forall l, In l (removelast data) -> exists body, l = body ++ [lf]).
Proof.
  apply (@load_then_write (fun _ => Some (concat Examples.product))
           (py "t.xml") (py "o.xml") (concat Examples.product) eq_refl).
Defined.

(** ** [pds4.util] *)

Lemma basename_of_name (dir name : pystr) :
  dir = [] \/ (exists d, dir = d ++ [slash]) ->
  ~ In slash name -> basename (dir ++ name) = name.
Proof.
  intros [-> | (d & ->)] Hn; unfold basename.
  - simpl app. rewrite (@rfind_none slash name Hn).
    change (-1 + 1)%Z with (Z.of_nat (@length ascii [])).
    apply (slice_suffix [] name).
  - rewrite <- app_assoc. simpl app.
    rewrite (@rfind_app_notin slash d name Hn).
    replace (Z.of_nat (length d) + 1)%Z
      with (Z.of_nat (length (d ++ [slash])))
      by (rewrite length_app; simpl; lia).
    replace (d ++ slash :: name) with ((d ++ [slash]) ++ name)
      by (now rewrite <- app_assoc).
    apply slice_suffix.
Qed.

Lemma before_first_app (c : ascii) (name rest : pystr) :
  ~ In c name -> before_first c (name ++ c :: rest) = name.
Proof.
  induction name as [|x name IH]; intro H; simpl.
  - now rewrite Ascii.eqb_refl.
  - rewrite eqb_neq_false by (intro E; apply H; now left).
    f_equal. apply IH. intro Hin. apply H. now right.
Qed.

Lemma before_first_none (c : ascii) (name : pystr) :
  ~ In c name -> before_first c name = name.
Proof.
  induction name as [|x name IH]; intro H; simpl; [reflexivity|].
  rewrite eqb_neq_false by (intro E; apply H; now left).
  f_equal. apply IH. intro Hin. apply H. now right.
Qed.

(** X8. The name of the label is the name of the file cut at its first
    dot, with [.xml] added, in the directory of the absolute path: a file
    [name.ext], where [ext] may hold further dots, and a file [name]
    without a dot both get the label [name.xml]; and [name] is also the
    base name the scripts put into the logical identifier. *)
Theorem label_filename_cuts_at_first_dot (abspath : pystr -> pystr)
  (dir name ext : pystr) :
  dir = [] \/ (exists d, dir = d ++ [slash]) ->
  ~ In slash name -> ~ In dot name -> ~ In slash ext ->
  label_filename abspath (dir ++ name ++ dot :: ext)
  = split_head (abspath (dir ++ name ++ dot :: ext))
      ++ [slash] ++ name ++ py ".xml" /\
  label_filename abspath (dir ++ name)
  = split_head (abspath (dir ++ name)) ++ [slash] ++ name ++ py ".xml" /\
  file_base (dir ++ name ++ dot :: ext) = name.
Proof.
  intros Hd Hs Hdot He. unfold label_filename, file_base.
  assert (Hb : basename (dir ++ name ++ dot :: ext) = name ++ dot :: ext).
  { apply (@basename_of_name dir (name ++ dot :: ext) Hd).
    intro Hin. apply in_app_or in Hin as [Hin|[Hin|Hin]];
      [now apply Hs | discriminate Hin | now apply He]. }
  rewrite Hb, (@basename_of_name dir name Hd Hs).
  rewrite before_first_app by exact Hdot.
  rewrite before_first_none by exact Hdot. now repeat split.
Qed.

Lemma label_filename_cuts_at_first_dot_witness :
  label_filename (fun p => py "/work/" ++ p) (py "data/mro.v2.tnf")
  = py "/work/data/mro.xml" /\
  label_filename (fun p => py "/work/" ++ p) (py "data/mro")
  = py "/work/data/mro.xml" /\
  file_base (py "data/mro.v2.tnf") = py "mro".
Proof.
  apply (@label_filename_cuts_at_first_dot (fun p => py "/work/" ++ p)
           (py "data/") (py "mro") (py "v2.tnf")).
  - right. now exists (py "data").
  - simpl. intuition discriminate.
  - simpl. intuition discriminate.
  - simpl. intuition discriminate.
Defined.

Lemma file_read_nothing (bs : Z) (rest rest' : pystr) :
  bs <> 0%Z -> file_read bs rest = Ok ([], rest') -> rest = [].
Proof.
  unfold file_read. intros H.
  destruct (Z.ltb_spec bs (-1)); [discriminate|].
  destruct (Z.eqb_spec bs (-1)).
  - now intros [= ->].
  - intros [= E _]. destruct (Z.to_nat bs) eqn:N; [lia|].
    destruct rest; [reflexivity | discriminate].
Qed.

Lemma file_read_app (bs : Z) (rest buf rest' : pystr) :
  file_read bs rest = Ok (buf, rest') -> buf ++ rest' = rest.
Proof.
  unfold file_read. destruct (bs <? -1)%Z; [discriminate|].
  destruct (bs =? -1)%Z.
  - intros [= <- <-]. apply app_nil_r.
  - intros [= <- <-]. apply firstn_skipn.
Qed.


Lemma file_read_accepted (bs : Z) (rest : pystr) (x : exn) :
  (-1 <= bs)%Z -> file_read bs rest <> Raise x.
Proof.
  intro H. unfold file_read.
  destruct (Z.ltb_spec bs (-1)); [lia|].
  destruct (bs =? -1)%Z; discriminate.
Qed.

(** With a block size that is positive, or -1, the hasher is given the
    whole file. *)
Lemma feed_all (bs : Z) (rest fed : pystr) :
  (-1 <= bs)%Z -> bs <> 0%Z -> feed bs rest fed = Ok (fed ++ rest).
Proof.
  intros Hlo Hbs. funelim (feed bs rest fed).
  - match goal with E : file_read _ _ = Ok ([], _) |- _ =>
      rewrite (@file_read_nothing _ _ _ Hbs E) end.
    now rewrite app_nil_r.
  - match goal with IH : _ -> _ -> feed _ _ _ = _ |- _ =>
      rewrite (IH Hlo Hbs) end.
    match goal with E : file_read _ _ = Ok (_, _) |- _ =>
      rewrite <- (@file_read_app _ _ _ _ E) end.
    now rewrite <- app_assoc.
  - match goal with E : file_read _ _ = Raise _ |- _ =>
      now destruct (@file_read_accepted _ _ _ Hlo E) end.
Qed.




Lemma universal_crlf (text : pystr) :
  ~ In cr text -> universal (crlf text) = text.
Proof.
  induction text as [|c r IH]; intro H; [reflexivity|].
  assert (Hr : ~ In cr r) by (intro Hin; apply H; now right).
  assert (Hc : Ascii.eqb c cr = false)
    by (apply eqb_neq_false; intro E; apply H; now left).
  change (crlf (c :: r))
    with ((if Ascii.eqb c lf then [cr; lf] else [c]) ++ crlf r).
  destruct (Ascii.eqb c lf) eqn:E.
  - apply Ascii.eqb_eq in E. subst c. simpl. now rewrite (IH Hr).
  - simpl. rewrite Hc. now rewrite (IH Hr).
Qed.

(** X10. [NLtoCRLF] without the copy rewrites the file with a carriage
    return in front of every line feed and touches no other file; reading
    the outcome with universal newlines gives the text it was made from,
    and a second run leaves every file as the first run left it. *)
Theorem NLtoCRLF_twice (files : fs) (filename content : pystr) :
  files filename = Some content ->
  exists files1,
    NLtoCRLF files filename false = (files1, Returns tt) /\
    files1 filename = Some (crlf (universal content)) /\
    read_text files1 filename = Returns (universal content) /\
    (forall q, q <> filename -> files1 q = files q) /\
    exists files2,
      NLtoCRLF files1 filename false = (files2, Returns tt) /\
      forall q, files2 q = files1 q.
Proof.
  intro H.
  assert (Hback : universal (crlf (universal content)) = universal content)
    by apply universal_crlf, universal_no_cr.
  exists (fs_set files filename (Some (crlf (universal content)))).
  split; [unfold NLtoCRLF, read_text; now rewrite H|].
  split; [apply fs_set_same|].
  split; [unfold read_text; now rewrite fs_set_same, Hback|].
  split; [intros q Hq; now apply fs_set_other|].
  eexists. split.
  - unfold NLtoCRLF, read_text. rewrite fs_set_same, Hback. reflexivity.
  - intro q. unfold fs_set. now destruct (str_eqb q filename).
Qed.

Lemma NLtoCRLF_twice_witness :
  exists files1,
    NLtoCRLF (fun _ => Some (concat Examples.product)) (py "t.xml") false
    = (files1, Returns tt) /\
    files1 (py "t.xml") = Some (crlf (universal (concat Examples.product)))
    /\ read_text files1 (py "t.xml")
       = Returns (universal (concat Examples.product)) /\
    (forall q, q <> py "t.xml" ->
       files1 q = (fun _ => Some (concat Examples.product)) q) /\
    exists files2,
      NLtoCRLF files1 (py "t.xml") false = (files2, Returns tt) /\
      forall q, files2 q = files1 q.
Proof.
  apply (@NLtoCRLF_twice (fun _ => Some (concat Examples.product))
           (py "t.xml") (concat Examples.product) eq_refl).
Defined.

Lemma str_eqb_length (a b : pystr) :
  str_eqb a b = true -> length a = length b.
Proof. intro H. apply str_eqb_eq in H. now subst. Qed.

(** X11. [NLtoCRLF] with [copyfile] never converts anything: it moves the
    file to the name with [.originalNL] added and then fails with
    [FileNotFoundError] on opening the name it has just moved away; when
    the file is not there the move itself fails so, and nothing changes. *)
Theorem NLtoCRLF_copy_fails (files : fs) (filename : pystr) :
  exists files1,
    NLtoCRLF files filename true = (files1, Fails FileNotFoundError) /\
    match files filename with
    | Some content =>
        files1 filename = None /\
        files1 (filename ++ py ".originalNL") = Some content /\
        forall q, q <> filename -> q <> filename ++ py ".originalNL" ->
                  files1 q = files q
    | None => forall q, files1 q = files q
    end.
Proof.
  assert (Hneq : filename <> filename ++ py ".originalNL").
  { intro Heq. apply (f_equal (@length ascii)) in Heq.
    rewrite length_app in Heq. simpl in Heq. lia. }
  unfold NLtoCRLF, move. destruct (files filename) as [content|] eqn:E.
  - eexists. split.
    + unfold read_text. rewrite fs_set_other by exact Hneq.
      rewrite fs_set_same. reflexivity.
    + split; [rewrite fs_set_other by exact Hneq; apply fs_set_same|].
      split; [apply fs_set_same|].
      intros q H1 H2. now rewrite !fs_set_other.
  - exists files. split; [reflexivity | now intro q].
Qed.

(** ** The logical identifier in the label scripts *)

Lemma rsplit_head_app (c : ascii) (x base : pystr) :
  ~ In c base -> rsplit_head c (x ++ c :: base) = x.
Proof.
  intro H. unfold rsplit_head.
  rewrite (@rfind_app_notin c x base H).
  destruct (Z.ltb_spec (Z.of_nat (length x)) 0); [lia|].
  apply slice_prefix.
Qed.

Lemma new_lid_again (old base : pystr) :
  ~ In colon base -> new_lid (new_lid old base) base = new_lid old base.
Proof. intro H. unfold new_lid. now rewrite rsplit_head_app. Qed.

(** X12. The new identifier keeps everything of the old one in front of
    its last colon; when the base name has no colon, making the new
    identifier from the new identifier gives it again. *)
Theorem new_lid_stable (old base : pystr) :
  has_char colon base = false ->
  rsplit_head colon (new_lid old base) = rsplit_head colon old /\
  new_lid (new_lid old base) base = new_lid old base.
Proof.
  intro H. apply has_char_false in H.
  assert (E : rsplit_head colon (new_lid old base) = rsplit_head colon old)
    by (unfold new_lid; now apply rsplit_head_app).
  split; [exact E | now apply new_lid_again].
Qed.

Lemma new_lid_stable_witness :
  rsplit_head colon (new_lid (py "urn:nasa:pds:mro:tnf:template") (py "a1"))
  = rsplit_head colon (py "urn:nasa:pds:mro:tnf:template") /\
  new_lid (new_lid (py "urn:nasa:pds:mro:tnf:template") (py "a1")) (py "a1")
  = new_lid (py "urn:nasa:pds:mro:tnf:template") (py "a1").
Proof.
  apply (@new_lid_stable (py "urn:nasa:pds:mro:tnf:template") (py "a1")).
  reflexivity.
Defined.

(** X13. A label without a line for the logical identifier stops the label
    scripts at their first use of it: [read] hands back [None], and the
    call of [rsplit] on it fails with [AttributeError], the string
    concatenation of the inventory script with [TypeError]. *)
Theorem scripts_without_identifier (base : pystr) (data : list pystr) :
  existsb (str_in lid_marker) data = false ->
  update_lid base data = Fails AttributeError /\
  identifier data = Fails (Raised TypeError).
Proof.
  intro H. unfold update_lid, identifier, read.
  rewrite (@read_first_no_match lid_marker data [] H).
  cbn [lift and_then]. split; [reflexivity|].
  destruct (read_loop (py "<version_id>") (py "first") data [])
    as [v|e] eqn:E; [reflexivity|].
  exfalso. rewrite read_first_values in E. discriminate E.
Qed.

Lemma scripts_without_identifier_witness :
  update_lid (py "a1") Examples.product = Fails AttributeError /\
  identifier Examples.product = Fails (Raised TypeError).
Proof.
  apply (@scripts_without_identifier (py "a1") Examples.product).
  reflexivity.
Defined.

(** [replace] a second time, where every line it rewrites settles. *)
Lemma replace_again (m v : pystr) (data : list pystr) :
  (forall l, In l data -> str_in m l = true -> settles v l = true) ->
  replace m v false (replace m v false data) = replace m v false data.
Proof.
  induction data as [|l rest IH]; intro H; [reflexivity|].
  assert (Hrest : replace m v false (replace m v false rest)
                  = replace m v false rest)
    by (apply IH; intros l' Hin; apply H; now right).
  simpl. destruct (str_in m l) eqn:E; simpl.
  - rewrite Hrest.
    destruct (str_in m (replace_line v l)); [|reflexivity].
    now rewrite replace_line_settled by (apply H; [now left | exact E]).
  - now rewrite E, Hrest.
Qed.

(** X14. Updating the logical identifier is repeatable: when the new
    identifier has no '>' and no '<', the base name has no colon, and the
    marker is still found after the update, a second update with the same
    base name returns the document of the first. *)
Theorem update_lid_twice (base old : pystr) (data : list pystr) :
  read lid_marker (py "first") data = Ok (PyStr old) ->
  has_char gt (new_lid old base) = false ->
  has_char lt (new_lid old base) = false ->
  has_char colon base = false ->
  existsb (str_in lid_marker)
    (replace lid_marker (new_lid old base) false data) = true ->
  update_lid base data
  = Returns (replace lid_marker (new_lid old base) false data) /\
  read lid_marker (py "first")
    (replace lid_marker (new_lid old base) false data)
  = Ok (PyStr (new_lid old base)) /\
  update_lid base (replace lid_marker (new_lid old base) false data)
  = Returns (replace lid_marker (new_lid old base) false data).
Proof.
  intros Hread Hg Hl Hc Hm.
  assert (Hne : forall l, In l data -> str_in lid_marker l = true -> l <> [])
    by (intros l _ Hin ->; discriminate Hin).
  assert (Hread1 : read lid_marker (py "first")
                     (replace lid_marker (new_lid old base) false data)
                   = Ok (PyStr (new_lid old base)))
    by (unfold read; now apply read_after_replace).
  split; [unfold update_lid; now rewrite Hread|]. split; [exact Hread1|].
  unfold update_lid. rewrite Hread1. simpl.
  apply has_char_false in Hc.
  rewrite (@new_lid_again old base Hc). f_equal. apply replace_again.
  intros l Hin Hs. unfold settles. rewrite Hg, Hl. simpl.
  destruct l; [now apply Hne in Hin | apply orb_true_r].
Qed.

Lemma update_lid_twice_witness :
  update_lid (py "a1")
    [Examples.ln "<logical_identifier>urn:x:template</logical_identifier>"]
  = Returns [Examples.ln "<logical_identifier>urn:x:a1</logical_identifier>"]
  /\ update_lid (py "a1")
       [Examples.ln "<logical_identifier>urn:x:a1</logical_identifier>"]
     = Returns
         [Examples.ln "<logical_identifier>urn:x:a1</logical_identifier>"].
Proof.
  destruct (@update_lid_twice (py "a1") (py "urn:x:template")
              [Examples.ln
                 "<logical_identifier>urn:x:template</logical_identifier>"]
              eq_refl eq_refl eq_refl eq_refl eq_refl) as (H1 & _ & H2).
  split; [exact H1 | exact H2].
Defined.

(** ** Where the sub-templates end up *)

(** X15. [fill] drops a sub-template without a word when the host gives it
    no anchor: when a line of the host holds [<Table_Binary>] and none
    holds [</Table_Binary>], whether or not there is a line with [</File>];
    and when no line holds [<Table_Binary>] and none holds [</File>]. *)
Theorem insert_table_drops (host sub : list pystr) :
  (existsb (str_in table_open) host = true ->
   existsb (str_in table_close) host = false ->
   insert_table host sub = Ok host) /\
  (existsb (str_in table_open) host = false ->
   existsb (str_in file_close) host = false ->
   insert_table host sub = Ok host).
Proof.
  unfold insert_table, table_open, table_close, file_close.
  split; intros H1 H2; rewrite H1; now apply insert_no_match.
Qed.

Lemma insert_table_drops_witness :
  insert_table
    [ Examples.ln "<File>"; Examples.ln "<Table_Binary/>";
      Examples.ln "<Table_Binary>"; Examples.ln "</File>" ] Examples.sub
  = Ok [ Examples.ln "<File>"; Examples.ln "<Table_Binary/>";
         Examples.ln "<Table_Binary>"; Examples.ln "</File>" ] /\
  insert_table [ Examples.ln "<Product>"; Examples.ln "</Product>" ]
    Examples.sub
  = Ok [ Examples.ln "<Product>"; Examples.ln "</Product>" ].
Proof.
  split.
  - apply (proj1 (insert_table_drops _ Examples.sub)); reflexivity.
  - apply (proj2 (insert_table_drops _ Examples.sub)); reflexivity.
Defined.

Section TableLayout.

Variable info : Info.
Variables len cnt : nat -> Z.

(** X16. How one turn of the loop fails: the lookup of the record count
    fails as the decoder makes it fail; a data type beyond the list of
    sub-templates gives [IndexError]; a sub-template without a line for
    the record length gives [TypeError], from [int(None)]; a record length
    that is no integer gives [ValueError]. *)
Theorem fill_step_failures (i : nat) (st : state) :
  (forall e, numberDataTypes info i = Raise e ->
     fill_step info i st = Raise e) /\
  (forall n, numberDataTypes info i = Ok n ->
     (length (tableTemplate st) <= i)%nat ->
     fill_step info i st = Raise IndexError) /\
  (forall n tpl, numberDataTypes info i = Ok n ->
     table (tableTemplate st) i = Ok tpl ->
     existsb (str_in record_length_marker) tpl = false ->
     fill_step info i st = Raise TypeError) /\
  (forall n tpl s, numberDataTypes info i = Ok n ->
     table (tableTemplate st) i = Ok tpl ->
     read record_length_marker (py "first") tpl = Ok (PyStr s) ->
     PyInt.int_of_str s = Raise ValueError ->
     fill_step info i st = Raise ValueError).
Proof.
  unfold fill_step. repeat split.
  - intros e H. now rewrite H.
  - intros n H Hlen. rewrite H. cbn [bind]. rewrite table_nth_error.
    apply nth_error_None in Hlen. now rewrite Hlen.
  - intros n tpl H Ht Hm. rewrite H. cbn [bind]. rewrite Ht. cbn [bind].
    unfold read.
    now rewrite (@read_first_no_match record_length_marker tpl [] Hm).
  - intros n tpl s H Ht Hr Hi. rewrite H. cbn [bind]. rewrite Ht.
    cbn [bind]. rewrite Hr. cbn [bind]. unfold PyInt.int. now rewrite Hi.
Qed.

Lemma replace_keeps_line (m v : pystr) (one : bool) (data : list pystr)
  (i : nat) (l : pystr) :
  nth_error data i = Some l -> str_in m l = false ->
  nth_error (replace m v one data) i = Some l.
Proof.
  intros H Hm. rewrite (@replace_nth_error m v one data i l H).
  now rewrite Hm.
Qed.

Lemma parameterize_keeps_line (offset n : Z) (tpl : list pystr) (i : nat)
  (l : pystr) :
  nth_error tpl i = Some l -> untouched l = true ->
  nth_error (parameterize offset n tpl) i = Some l.
Proof.
  intros H Hu. unfold untouched in Hu.
  apply andb_true_iff in Hu as [Hu H3]. apply andb_true_iff in Hu as [H1 H2].
  apply negb_true_iff in H1, H2, H3.
  unfold parameterize. now repeat apply replace_keeps_line.
Qed.

Lemma parameterize_length (offset n : Z) (tpl : list pystr) :
  length (parameterize offset n tpl) = length tpl.
Proof. unfold parameterize. now rewrite !replace_length. Qed.

Lemma ends_with_last {A} (t : list A) (n : nat) (c : A) :
  length t = S n -> nth_error t n = Some c -> exists body, t = body ++ [c].
Proof.
  intros Hlen H. apply nth_error_split in H as (l1 & l2 & -> & Hl1).
  rewrite length_app in Hlen. simpl in Hlen.
  destruct l2; [now exists l1 | simpl in Hlen; lia].
Qed.

(** A table block is still one after the loop has filled it in. *)
Lemma wrapper_ends_wrapped (offset n : Z) (tpl : list pystr) :
  wrapper tpl = true -> ends_wrapped (parameterize offset n tpl).
Proof.
  unfold wrapper. intro H. apply andb_true_iff in H as [Ho Hc]. split.
  - apply existsb_exists in Ho as (l & Hin & Hl).
    apply andb_true_iff in Hl as [Hl Hu].
    apply In_nth_error in Hin as (i & Hi).
    apply existsb_exists. exists l. split; [|exact Hl].
    eapply nth_error_In. now apply parameterize_keeps_line; eauto.
  - destruct (rev tpl) as [|c r] eqn:E; [discriminate|].
    apply andb_true_iff in Hc as [Hc Hu].
    assert (Et : tpl = rev r ++ [c])
      by (rewrite <- (rev_involutive tpl), E; reflexivity).
    destruct (@ends_with_last _ (parameterize offset n tpl)
                (length (rev r)) c) as (body & Hb).
    + rewrite parameterize_length, Et, length_app. simpl. lia.
    + apply parameterize_keeps_line; [|exact Hu].
      rewrite Et, nth_error_app2, Nat.sub_diag by apply Nat.le_refl.
      reflexivity.
    + now exists body, c.
Qed.

Lemma ends_wrapped_app (T t : list pystr) :
  ends_wrapped t -> ends_wrapped (T ++ t).
Proof.
  intros (Ho & body & c & -> & Hc). split.
  - rewrite existsb_app, Ho. apply orb_true_r.
  - exists (T ++ body), c. now rewrite app_assoc.
Qed.

Variables pre post : list pystr.
Variable file_end : pystr.

Hypothesis file_end_closes : str_in file_close file_end = true.
Hypothesis no_file_close_behind : existsb (str_in file_close) post = false.
Hypothesis no_table_open :
  existsb (str_in table_open) (pre ++ file_end :: post) = false.
Hypothesis no_table_close_behind :
  existsb (str_in table_close) post = false.

(** The first sub-template goes behind the last line with [</File>]. *)
Lemma insert_table_first (sub : list pystr) :
  insert_table (pre ++ file_end :: post) sub
  = Ok (pre ++ file_end :: sub ++ post).
Proof.
  unfold insert_table. unfold table_open in no_table_open.
  rewrite no_table_open. now apply insert_last_at.
Qed.

(** Every further one goes behind the one before. *)
Lemma insert_table_next (T sub : list pystr) :
  ends_wrapped T ->
  insert_table (pre ++ file_end :: T ++ post) sub
  = Ok (pre ++ file_end :: (T ++ sub) ++ post).
Proof.
  intros (Ho & body & c & -> & Hc). unfold insert_table.
  assert (Hany : existsb (str_in (py "<Table_Binary>"))
                   (pre ++ file_end :: (body ++ [c]) ++ post) = true).
  { apply existsb_exists in Ho as (l & Hin & Hl).
    apply existsb_exists. exists l. split; [|exact Hl].
    apply in_or_app. right. right. apply in_or_app. now left. }
  rewrite Hany.
  replace (pre ++ file_end :: (body ++ [c]) ++ post)
    with ((pre ++ file_end :: body) ++ c :: post)
    by (repeat (rewrite <- app_assoc; simpl); reflexivity).
  rewrite (@insert_last_at (py "</Table_Binary>") sub
             (pre ++ file_end :: body) post c no_table_close_behind Hc).
  f_equal. repeat (rewrite <- app_assoc; simpl). reflexivity.
Qed.

Lemma insert_table_grows (T sub : list pystr) :
  T = [] \/ ends_wrapped T ->
  insert_table (pre ++ file_end :: T ++ post) sub
  = Ok (pre ++ file_end :: (T ++ sub) ++ post).
Proof.
  intros [-> | H]; [apply insert_table_first | now apply insert_table_next].
Qed.

Lemma filled_ext (tt1 tt2 : list (list pystr)) (kinds : list nat) :
  forall offset,
  (forall k, In k kinds -> table tt1 k = table tt2 k) ->
  filled len cnt tt1 offset kinds = filled len cnt tt2 offset kinds.
Proof.
  induction kinds as [|k rest IH]; intros offset H; [reflexivity|].
  simpl. rewrite (H k (or_introl eq_refl)). f_equal.
  apply IH. intros k' Hin. apply H. now right.
Qed.

(** The loop from a host that holds the blocks [T] of earlier turns. *)
Lemma fill_loop_layout (kinds : list nat) : forall (st : state)
  (T : list pystr),
  ascending kinds = true ->
  (forall k, In k kinds ->
     numberDataTypes info k = Ok (cnt k) /\
     exists tpl s,
       table (tableTemplate st) k = Ok tpl /\
       read record_length_marker (py "first") tpl = Ok s /\
       PyInt.int s = Ok (len k) /\
       wrapper tpl = true) ->
  Template st = pre ++ file_end :: T ++ post ->
  T = [] \/ ends_wrapped T ->
  exists st',
    fill_loop info kinds st = Ok st' /\
    Template st'
    = pre ++ file_end
        :: (T ++ concat (filled len cnt (tableTemplate st)
                           (byte_location st) kinds)) ++ post.
Proof.
  induction kinds as [|i rest IH]; intros st T Hasc Hready Hhost HT.
  - exists st. split; [reflexivity|]. simpl. now rewrite app_nil_r.
  - destruct (@ascending_tail i rest Hasc) as [Hasc' Hlt].
    destruct (Hready i (or_introl eq_refl))
      as (Hn & tpl & s & Ht & Hr & Hi & Hw).
    set (tpl' := parameterize (byte_location st) (cnt i) tpl).
    set (st1 := {| byte_location := (byte_location st + len i * cnt i)%Z;
                   Template := pre ++ file_end :: (T ++ tpl') ++ post;
                   tableTemplate := update (tableTemplate st) i tpl' |}).
    assert (Hstep : fill_step info i st = Ok st1).
    { unfold fill_step. rewrite Hn. cbn [bind]. rewrite Ht. cbn [bind].
      rewrite Hr. cbn [bind]. rewrite Hi. cbn [bind].
      rewrite Hhost. fold tpl'. now rewrite (insert_table_grows tpl' HT). }
    assert (Hother : forall k, In k rest ->
              table (tableTemplate st1) k = table (tableTemplate st) k).
    { intros k Hk. apply table_update_other. specialize (Hlt k Hk). lia. }
    destruct (IH st1 (T ++ tpl') Hasc') as (st' & Hrun & Hlay).
    + intros k Hk. destruct (Hready k (or_intror Hk)) as (Hn' & R).
      split; [exact Hn'|]. now rewrite (Hother k Hk).
    + reflexivity.
    + right. apply ends_wrapped_app. now apply wrapper_ends_wrapped.
    + exists st'. split; [simpl fill_loop; now rewrite Hstep|].
      rewrite Hlay.
      rewrite (@filled_ext (tableTemplate st1) (tableTemplate st) rest
                 (byte_location st1) Hother).
      cbn [filled]. rewrite Ht. fold tpl'. cbn [concat].
      unfold st1. cbn [byte_location].
      repeat (rewrite <- app_assoc; simpl). reflexivity.
Qed.

End TableLayout.

(** X17. The layout [fill] gives the label. Take a host whose last line
    with [</File>] is [file_end], with no line holding [<Table_Binary>]
    and no line behind [file_end] holding [</Table_Binary>]; data types in
    ascending order, each with its count, its record length, and a
    sub-template that is a table block. Then the loop ends normally and the
    host holds, right behind [file_end], the filled-in sub-templates one
    after the other in the order of the data types, with nothing else
    changed. *)
Theorem fill_tables_layout (info : Info) (len cnt : nat -> Z)
  (pre post : list pystr) (file_end : pystr) (tt : list (list pystr)) :
  str_in file_close file_end = true ->
  existsb (str_in file_close) post = false ->
  existsb (str_in table_open) (pre ++ file_end :: post) = false ->
  existsb (str_in table_close) post = false ->
  ascending (dataTypes info) = true ->
  (forall k, In k (dataTypes info) ->
     numberDataTypes info k = Ok (cnt k) /\
     exists tpl s,
       table tt k = Ok tpl /\
       read record_length_marker (py "first") tpl = Ok s /\
       PyInt.int s = Ok (len k) /\
       wrapper tpl = true) ->
  exists st,
    fill_tables info (pre ++ file_end :: post) tt = Ok st /\
    Template st
    = pre ++ file_end
        :: concat (filled len cnt tt 0 (dataTypes info)) ++ post.
Proof.
  intros H1 H2 H3 H4 Hasc Hready. unfold fill_tables.
  destruct (@fill_loop_layout info len cnt pre post file_end H1 H2 H3 H4
              (dataTypes info)
              {| byte_location := 0; Template := pre ++ file_end :: post;
                 tableTemplate := tt |} [] Hasc Hready eq_refl
              (or_introl eq_refl)) as (st & Hrun & Hlay).
  exists st. split; [exact Hrun | exact Hlay].
Qed.

Lemma fill_tables_layout_witness :
  exists st,
    fill_tables Examples.info Examples.label Examples.tables = Ok st /\
    Template st
    = [ Examples.ln "<File_Area>"; Examples.ln "<File>" ]
      ++ Examples.ln "</File>"
      :: concat (filled Examples.len Examples.cnt Examples.tables 0
                   [2; 5]%nat)
      ++ [ Examples.ln "</File_Area>" ].
Proof.
  apply (@fill_tables_layout Examples.info Examples.len Examples.cnt
           [ Examples.ln "<File_Area>"; Examples.ln "<File>" ]
           [ Examples.ln "</File_Area>" ] (Examples.ln "</File>")
           Examples.tables eq_refl eq_refl eq_refl eq_refl eq_refl).
  intros k [<-|[<-|[]]].
  - split; [reflexivity|].
    exists (Examples.table_of "20"), (PyStr (py "20")).
    repeat split; reflexivity.
  - split; [reflexivity|].
    exists (Examples.table_of "8"), (PyStr (py "8")).
    repeat split; reflexivity.
Defined.

Lemma fill_step_failures_witness :
  fill_step Examples.info 7
    {| byte_location := 0; Template := Examples.label;
       tableTemplate := Examples.tables |} = Raise KeyError /\
  fill_step {| dataTypes := [18]%nat; numberDataTypes := fun _ => Ok 1%Z |}
    18 {| byte_location := 0; Template := Examples.label;
          tableTemplate := Examples.tables |} = Raise IndexError /\
  fill_step {| dataTypes := [0]%nat; numberDataTypes := fun _ => Ok 1%Z |}
    0 {| byte_location := 0; Template := Examples.label;
         tableTemplate := [Examples.sub] |} = Raise TypeError.
Proof.
  split; [|split].
  - apply (proj1 (@fill_step_failures Examples.info 7
                    {| byte_location := 0; Template := Examples.label;
                       tableTemplate := Examples.tables |}) KeyError).
    reflexivity.
  - apply (proj1 (proj2 (@fill_step_failures
                    {| dataTypes := [18]%nat;
                       numberDataTypes := fun _ => Ok 1%Z |} 18
                    {| byte_location := 0; Template := Examples.label;
                       tableTemplate := Examples.tables |})) 1%Z).
    + reflexivity.
    + simpl. lia.
  - apply (proj1 (proj2 (proj2 (@fill_step_failures
                    {| dataTypes := [0]%nat;
                       numberDataTypes := fun _ => Ok 1%Z |} 0
                    {| byte_location := 0; Template := Examples.label;
                       tableTemplate := [Examples.sub] |}))) 1%Z Examples.sub);
      reflexivity.
Defined.

(** ** The scan of the media calibration file *)

Section CspFacts.

Variable T : Type.
Variable strptime : pystr -> pystr -> outcome T.


(** One turn counts one record, binds the start time only while [first] is
    unset and the line holds FROM, and the end time only when the line
    holds TO. *)
Lemma scan_line_facts (line : pystr) (st st' : Csp.scan_state T) :
  Csp.scan_line strptime line st = Returns st' ->
  Csp.n_records st' = (Csp.n_records st + 1)%Z /\
  (str_in (py "FROM") line && negb (Csp.first st) = false ->
   Csp.start_time st' = Csp.start_time st /\
   Csp.first st' = Csp.first st) /\
  (str_in (py "FROM") line && negb (Csp.first st) = true ->
   Csp.first st' = true /\
   exists t,
     strptime (Csp.time_text (py "FROM(") 5 line)
       (Csp.time_format (Csp.time_text (py "FROM(") 5 line)) = Returns t /\
     Csp.start_time st' = Some t) /\
  (str_in (py "TO") line = false -> Csp.end_time st' = Csp.end_time st) /\
  (str_in (py "TO") line = true ->
   exists t,
     strptime (Csp.time_text (py "TO(") 3 line)
       (Csp.time_format (Csp.time_text (py "TO(") 3 line)) = Returns t /\
     Csp.end_time st' = Some t).
Proof.
  unfold Csp.scan_line. cbv zeta.
  destruct (str_in (py "FROM") line && negb (Csp.first st)) eqn:EF;
    destruct (str_in (py "TO") line) eqn:ET; cbn [and_then].
  - destruct (strptime (Csp.time_text (py "FROM(") 5 line) _)
      as [t|f] eqn:E1;
      cbn [and_then]; [|discriminate].
    destruct (strptime (Csp.time_text (py "TO(") 3 line) _)
      as [t2|f] eqn:E2;
      cbn [and_then]; [|discriminate].
    intros [= <-]. cbn. repeat split; try discriminate; eauto.
  - destruct (strptime (Csp.time_text (py "FROM(") 5 line) _)
      as [t|f] eqn:E1;
      cbn [and_then]; [|discriminate].
    intros [= <-]. cbn. repeat split; try discriminate; eauto.
  - destruct (strptime (Csp.time_text (py "TO(") 3 line) _)
      as [t2|f] eqn:E2;
      cbn [and_then]; [|discriminate].
    intros [= <-]. cbn. repeat split; try discriminate; eauto.
  - intros [= <-]. cbn. repeat split; try discriminate; eauto.
Qed.

Lemma scan_app (a b : list pystr) (st : Csp.scan_state T) :
  Csp.scan strptime (a ++ b) st
  = (st' <-- Csp.scan strptime a st ;; Csp.scan strptime b st').
Proof.
  revert st. induction a as [|l a IH]; intro st; [reflexivity|].
  simpl. destruct (Csp.scan_line strptime l st) as [st1|f];
    [apply IH | reflexivity].
Qed.

Lemma scan_count (lines : list pystr) : forall st st' : Csp.scan_state T,
  Csp.scan strptime lines st = Returns st' ->
  Csp.n_records st' = (Csp.n_records st + Z.of_nat (length lines))%Z.
Proof.
  induction lines as [|l rest IH]; intros st st' H.
  - injection H as <-. simpl. lia.
  - simpl in H.
    destruct (Csp.scan_line strptime l st) as [st1|f] eqn:E; [|discriminate].
    destruct (scan_line_facts _ _ E) as (Hn & _).
    rewrite (IH _ _ H), Hn. simpl length. lia.
Qed.

(** Lines without FROM leave the start time as it is; so do all lines once
    [first] is set. *)
Lemma scan_start_kept (lines : list pystr) : forall st st' : Csp.scan_state T,
  existsb (str_in (py "FROM")) lines = false \/ Csp.first st = true ->
  Csp.scan strptime lines st = Returns st' ->
  Csp.start_time st' = Csp.start_time st /\ Csp.first st' = Csp.first st.
Proof.
  induction lines as [|l rest IH]; intros st st' Hc H.
  - injection H as <-. now split.
  - simpl in H.
    destruct (Csp.scan_line strptime l st) as [st1|f] eqn:E; [|discriminate].
    destruct (scan_line_facts _ _ E) as (_ & Hkeep & _).
    assert (Hoff : str_in (py "FROM") l && negb (Csp.first st) = false).
    { destruct Hc as [Hc|Hc].
      - cbn [existsb] in Hc. apply orb_false_iff in Hc as [Hc _].
        now rewrite Hc.
      - rewrite Hc. apply andb_false_r. }
    destruct (Hkeep Hoff) as [Hs Hf].
    destruct (IH st1 st') as [Hs' Hf'].
    + destruct Hc as [Hc|Hc].
      * left. cbn [existsb] in Hc.
        now apply orb_false_iff in Hc as [_ Hc].
      * right. now rewrite Hf.
    + exact H.
    + split; congruence.
Qed.

Lemma scan_end_kept (lines : list pystr) : forall st st' : Csp.scan_state T,
  existsb (str_in (py "TO")) lines = false ->
  Csp.scan strptime lines st = Returns st' ->
  Csp.end_time st' = Csp.end_time st.
Proof.
  induction lines as [|l rest IH]; intros st st' Hc H.
  - now injection H as <-.
  - simpl in H.
    destruct (Csp.scan_line strptime l st) as [st1|f] eqn:E; [|discriminate].
    cbn [existsb] in Hc. apply orb_false_iff in Hc as [Hl Hrest].
    destruct (scan_line_facts _ _ E) as (_ & _ & _ & Hkeep & _).
    rewrite (IH _ _ Hrest H). now apply Hkeep.
Qed.

End CspFacts.

(** X18. When the scan of [pds4.csp.py] ends normally, the record count is
    the number of lines of the file, whatever the lines hold; the start
    time is the one of the first line that holds FROM and the end time the
    one of the last line that holds TO; without such a line the time stays
    unbound. *)
Theorem csp_scan_summary (T : Type) (strptime : pystr -> pystr -> outcome T)
  (lines : list pystr) (st : Csp.scan_state T) :
  Csp.scan_file strptime lines = Returns st ->
  Csp.n_records st = Z.of_nat (length lines) /\
  (existsb (str_in (py "FROM")) lines = false -> Csp.start_time st = None) /\
  (existsb (str_in (py "TO")) lines = false -> Csp.end_time st = None) /\
  (forall before l after,
     lines = before ++ l :: after ->
     existsb (str_in (py "FROM")) before = false ->
     str_in (py "FROM") l = true ->
     exists t,
       strptime (Csp.time_text (py "FROM(") 5 l)
         (Csp.time_format (Csp.time_text (py "FROM(") 5 l)) = Returns t /\
       Csp.start_time st = Some t) /\
  (forall before l after,
     lines = before ++ l :: after ->
     existsb (str_in (py "TO")) after = false ->
     str_in (py "TO") l = true ->
     exists t,
       strptime (Csp.time_text (py "TO(") 3 l)
         (Csp.time_format (Csp.time_text (py "TO(") 3 l)) = Returns t /\
       Csp.end_time st = Some t).
Proof.
  unfold Csp.scan_file. intro H. split; [|split; [|split; [|split]]].
  - now rewrite (@scan_count T strptime lines _ st H).
  - intro Hc.
    now destruct (@scan_start_kept T strptime lines _ st (or_introl Hc) H)
      as [-> _].
  - intro Hc. now rewrite (@scan_end_kept T strptime lines _ st Hc H).
  - intros before l after -> Hb Hl. rewrite scan_app in H.
    destruct (Csp.scan strptime before _) as [st0|f] eqn:E0;
      [|discriminate]. cbn [and_then] in H.
    destruct (@scan_start_kept T strptime before _ st0 (or_introl Hb) E0)
      as [Hs0 Hf0].
    cbn [Csp.scan] in H.
    destruct (Csp.scan_line strptime l st0) as [st1|f] eqn:E1;
      [|discriminate]. cbn [and_then] in H.
    destruct (@scan_line_facts T strptime l st0 st1 E1)
      as (_ & _ & Hset & _).
    destruct Hset as (Hf1 & t & Ht & Hs1);
      [rewrite Hl, Hf0; reflexivity|].
    exists t. split; [exact Ht|].
    destruct (@scan_start_kept T strptime after st1 st (or_intror Hf1) H)
      as [Hs' _].
    congruence.
  - intros before l after -> Ha Hl. rewrite scan_app in H.
    destruct (Csp.scan strptime before _) as [st0|f] eqn:E0;
      [|discriminate]. cbn [and_then] in H. cbn [Csp.scan] in H.
    destruct (Csp.scan_line strptime l st0) as [st1|f] eqn:E1;
      [|discriminate]. cbn [and_then] in H.
    destruct (@scan_line_facts T strptime l st0 st1 E1)
      as (_ & _ & _ & _ & Hset).
    destruct (Hset Hl) as (t & Ht & Hs1).
    exists t. split; [exact Ht|].
    rewrite (@scan_end_kept T strptime after st1 st Ha H). exact Hs1.
Qed.

Lemma csp_scan_summary_witness :
  exists st,
    Csp.scan_file (fun t _ => Returns t)
      [ Examples.ln "# media calibration";
        Examples.ln "ADJUST(TROPO) FROM(21/03/04,00:00) TO(21/03/05,06:00)" ]
    = Returns st /\
    Csp.n_records st = 2%Z /\
    Csp.start_time st = Some (py "21/03/04,00:00") /\
    Csp.end_time st = Some (py "21/03/05,06:00").
Proof.
  eexists. split; [reflexivity|].
  destruct (@csp_scan_summary pystr (fun t _ => Returns t)
              [ Examples.ln "# media calibration";
                Examples.ln
                  "ADJUST(TROPO) FROM(21/03/04,00:00) TO(21/03/05,06:00)" ]
              _ eq_refl) as (Hn & _ & _ & Hs & He).
  split; [exact Hn|]. split.
  - destruct (Hs [Examples.ln "# media calibration"]
                (Examples.ln
                   "ADJUST(TROPO) FROM(21/03/04,00:00) TO(21/03/05,06:00)")
                [] eq_refl eq_refl eq_refl) as (t & Ht & Hst).
    rewrite Hst. exact (f_equal (fun r => match r with
                                          | Returns x => Some x
                                          | Fails _ => None
                                          end) (eq_sym Ht)).
  - destruct (He [Examples.ln "# media calibration"]
                (Examples.ln
                   "ADJUST(TROPO) FROM(21/03/04,00:00) TO(21/03/05,06:00)")
                [] eq_refl eq_refl eq_refl) as (t & Ht & Hst).
    rewrite Hst. exact (f_equal (fun r => match r with
                                          | Returns x => Some x
                                          | Fails _ => None
                                          end) (eq_sym Ht)).
Defined.

Lemma time_text_key (key : pystr) (skip : Z) (pre t post : pystr) :
  skip = Z.of_nat (length key) ->
  ~ In Csp.rparen key -> ~ In Csp.rparen t ->
  Csp.find_str key (pre ++ key ++ t ++ Csp.rparen :: post)
  = Z.of_nat (length pre) ->
  Csp.time_text key skip (pre ++ key ++ t ++ Csp.rparen :: post) = t.
Proof.
  intros -> Hk Ht Hs. unfold Csp.time_text. cbv zeta. rewrite Hs.
  rewrite slice_suffix.
  assert (Hf : find Csp.rparen (key ++ t ++ Csp.rparen :: post)
               = Z.of_nat (length (key ++ t))).
  { rewrite app_assoc. apply find_app_notin.
    intro Hin. apply in_app_or in Hin as [Hin|Hin]; contradiction. }
  rewrite Hf.
  replace (Z.of_nat (length pre) + Z.of_nat (length key))%Z
    with (Z.of_nat (length (pre ++ key)))
    by (rewrite length_app; lia).
  replace (Z.of_nat (length pre) + Z.of_nat (length (key ++ t)))%Z
    with (Z.of_nat (length (pre ++ key) + length t))
    by (rewrite !length_app; lia).
  replace (pre ++ key ++ t ++ Csp.rparen :: post)
    with ((pre ++ key) ++ t ++ Csp.rparen :: post)
    by (now rewrite <- app_assoc).
  apply slice_middle.
Qed.

(** X19. On a line where [FROM(] first starts behind [pre] and is followed
    by a text without ')' and then a ')', the text taken for the start
    time is exactly that text; likewise for [TO(] and the end time. *)
Theorem time_text_between (pre t post : pystr) :
  ~ In Csp.rparen t ->
  (Csp.find_str (py "FROM(") (pre ++ py "FROM(" ++ t ++ Csp.rparen :: post)
   = Z.of_nat (length pre) ->
   Csp.time_text (py "FROM(") 5 (pre ++ py "FROM(" ++ t ++ Csp.rparen :: post)
   = t) /\
  (Csp.find_str (py "TO(") (pre ++ py "TO(" ++ t ++ Csp.rparen :: post)
   = Z.of_nat (length pre) ->
   Csp.time_text (py "TO(") 3 (pre ++ py "TO(" ++ t ++ Csp.rparen :: post)
   = t).
Proof.
  intro Ht. split; intro Hs.
  - apply time_text_key; try assumption; [reflexivity|].
    simpl. intuition discriminate.
  - apply time_text_key; try assumption; [reflexivity|].
    simpl. intuition discriminate.
Qed.

Lemma time_text_between_witness :
  Csp.time_text (py "FROM(") 5
    (py "ADJUST(TROPO) " ++ py "FROM(" ++ py "21/03/04,00:00"
       ++ Csp.rparen :: py " TO(21/03/05,06:00)")
  = py "21/03/04,00:00".
Proof.
  apply (proj1 (@time_text_between (py "ADJUST(TROPO) ")
                  (py "21/03/04,00:00") (py " TO(21/03/05,06:00)")
                  ltac:(simpl; intuition discriminate))).
  reflexivity.
Defined.

(** ** The sub-templates of [Label.__init__] *)

Lemma load_each_all (files : fs) (names : list pystr) :
  (forall n, In n names -> files n <> None) ->
  exists tpls,
    LabelInit.load_each files names = Returns tpls /\
    length tpls = length names /\
    forall i n c, nth_error names i = Some n -> files n = Some c ->
                  nth_error tpls i = Some (readlines (universal c)).
Proof.
  induction names as [|n rest IH]; intro H.
  - exists []. repeat split. intros [|i] n c Hn; discriminate Hn.
  - destruct IH as (tpls & Hrun & Hlen & Hnth);
      [intros n' Hin; apply H; now right|].
    destruct (files n) as [c|] eqn:E;
      [|exfalso; apply (H n (or_introl eq_refl) E)].
    exists (readlines (universal c) :: tpls). split; [|split].
    + simpl. unfold XML_File.init, read_text. rewrite E. cbn [and_then].
      now rewrite Hrun.
    + simpl. now rewrite Hlen.
    + intros [|i] n' c' Hn Hc; simpl in Hn.
      * injection Hn as <-. rewrite E in Hc. now injection Hc as <-.
      * simpl. now apply (Hnth i n' c').
Qed.

Lemma load_each_missing (files : fs) (names : list pystr) (n : pystr) :
  In n names -> files n = None ->
  LabelInit.load_each files names = Fails FileNotFoundError.
Proof.
  induction names as [|n0 rest IH]; intros Hin Hn; [contradiction|].
  simpl. unfold XML_File.init, read_text.
  destruct (files n0) as [c|] eqn:E; cbn [and_then]; [|reflexivity].
  destruct Hin as [->|Hin]; [rewrite Hn in E; discriminate E|].
  now rewrite (IH Hin Hn).
Qed.

(** X20. [Label.__init__] needs the files of all eighteen sub-templates,
    whatever data types the tracking file holds: with all of them there it
    loads exactly eighteen templates, the [i]-th from the file of data type
    [i]; with any one missing it fails with [FileNotFoundError]. *)
Theorem load_tables_needs_all (files : fs) (config_abs : pystr) :
  ((forall i, (i < 18)%nat ->
      files (LabelInit.table_file_name config_abs i) <> None) ->
   exists tt,
     LabelInit.load_tables files config_abs = Returns tt /\
     length tt = 18%nat /\
     forall i c, (i < 18)%nat ->
       files (LabelInit.table_file_name config_abs i) = Some c ->
       table tt i = Ok (readlines (universal c))) /\
  (forall i, (i < 18)%nat ->
     files (LabelInit.table_file_name config_abs i) = None ->
     LabelInit.load_tables files config_abs = Fails FileNotFoundError).
Proof.
  unfold LabelInit.load_tables. split.
  - intro H.
    destruct (@load_each_all files
                (map (LabelInit.table_file_name config_abs) (seq 0 18)))
      as (tt & Hrun & Hlen & Hnth).
    + intros n Hin. apply in_map_iff in Hin as (i & <- & Hi).
      apply in_seq in Hi. apply H. lia.
    + exists tt. split; [exact Hrun|]. split.
      * now rewrite Hlen, length_map, length_seq.
      * intros i c Hi Hc. rewrite table_nth_error.
        rewrite (Hnth i (LabelInit.table_file_name config_abs i) c);
          [reflexivity| |exact Hc].
        rewrite nth_error_map, nth_error_seq.
        apply Nat.ltb_lt in Hi. now rewrite Hi.
  - intros i Hi Hn.
    apply (@load_each_missing files _
             (LabelInit.table_file_name config_abs i)); [|exact Hn].
    apply in_map. apply in_seq. lia.
Qed.

Lemma load_tables_needs_all_witness :
  LabelInit.load_tables
    (fun p => if str_eqb p (LabelInit.table_file_name (py "/cfg") 17)
              then None else Some (concat (Examples.table_of "8")))
    (py "/cfg")
  = Fails FileNotFoundError.
Proof.
  apply (proj2 (@load_tables_needs_all
                  (fun p => if str_eqb p
                                 (LabelInit.table_file_name (py "/cfg") 17)
                            then None
                            else Some (concat (Examples.table_of "8")))
                  (py "/cfg")) 17%nat).
  - lia.
  - reflexivity.
Defined.

(** ** [pds4.olr.py] from end to end *)




Lemma olr_fill_runs (md5 : pystr -> pystr) (today : pystr)
  (info : Olr.Info) (input old content : pystr) (files : fs)
  (data : list pystr) :
  Olr.bits info = 16%Z ->
  read lid_marker (py "first") data = Ok (PyStr old) ->
  files input = Some content ->
  exists label,
    Olr.fill md5 today info input files data = Returns label /\
    length label = length data /\
    forall i l, nth_error data i = Some l ->
      forallb (fun m => negb (str_in m l)) olr_markers = true ->
      nth_error label i = Some l.
Proof.
  intros Hb Hl Hi. unfold Olr.fill, update_lid. cbv zeta.
  rewrite Hl. cbn [lift and_then]. unfold md5hashfile, getsize.
  rewrite Hi. rewrite feed_all by lia. cbn [lift and_then]. rewrite Hb. cbn [Z.eqb Pos.eqb].
  eexists. split; [reflexivity|]. split.
  - now rewrite !replace_length.
  - intros i l Hn Hm. unfold olr_markers in Hm. cbn [forallb] in Hm.
    repeat (apply andb_true_iff in Hm as [?H Hm]).
    repeat match goal with H : negb _ = true |- _ =>
      apply negb_true_iff in H end.
    now repeat apply replace_keeps_line.
Qed.

(** X22. With 16-bit data, no renaming, a template that has a line for the
    logical identifier, and the data file in place, [pds4.olr.py] ends
    normally and writes the label under the name [label_filename] gives
    it; the label has as many lines as the template, and every line of the
    template that holds none of the eleven markers stands in it unchanged
    at its place. *)
Theorem olr_label_written (md5 : pystr -> pystr) (abspath : pystr -> pystr)
  (today : pystr) (info : Olr.Info) (template input : pystr) (files : fs)
  (tc old content : pystr) :
  Olr.bits info = 16%Z ->
  files template = Some tc ->
  read lid_marker (py "first") (readlines (universal tc)) = Ok (PyStr old) ->
  files input = Some content ->
  exists label,
    Olr.main md5 abspath today info None template input files
    = (fs_set files (label_filename abspath input) (Some (concat label)),
       Returns tt) /\
    length label = length (readlines (universal tc)) /\
    forall i l, nth_error (readlines (universal tc)) i = Some l ->
      forallb (fun m => negb (str_in m l)) olr_markers = true ->
      nth_error label i = Some l.
Proof.
  intros Hb Ht Hl Hi.
  destruct (@olr_fill_runs md5 today info input old content files
              (readlines (universal tc)) Hb Hl Hi)
    as (label & Hrun & Hlen & Hkeep).
  exists label. split; [|split; [exact Hlen | exact Hkeep]].
  unfold Olr.main, XML_File.init, read_text. rewrite Ht.
  cbn [and_then]. rewrite Hrun. unfold XML_File.write.
  now rewrite fold_left_app_concat.
Qed.

Lemma olr_label_written_witness :
  exists label,
    Olr.main (fun _ => py "d41d8") (fun p => py "/work/" ++ p)
      (py "2023-09-20")
      {| Olr.start_text := py "2023-01-01T00:00:00Z";
         Olr.end_text := py "2023-01-01T01:00:00Z";
         Olr.record_length_text := py "1024";
         Olr.num_records_text := py "7";
         Olr.bits := 16 |}
      None (py "t.xml") (py "raw.olr")
      (fun p => if str_eqb p (py "t.xml")
                then Some small_template
                else Some (py "data"))
    = (fs_set
         (fun p => if str_eqb p (py "t.xml")
                   then Some small_template
                   else Some (py "data"))
         (py "/work/raw.xml") (Some (concat label)),
       Returns tt) /\
    length label = 2%nat /\
    nth_error label 0 = Some (Examples.ln "<name>foo</name>").
Proof.
  destruct (@olr_label_written (fun _ => py "d41d8")
              (fun p => py "/work/" ++ p) (py "2023-09-20")
              {| Olr.start_text := py "2023-01-01T00:00:00Z";
                 Olr.end_text := py "2023-01-01T01:00:00Z";
                 Olr.record_length_text := py "1024";
                 Olr.num_records_text := py "7";
                 Olr.bits := 16 |}
              (py "t.xml") (py "raw.olr")
              (fun p => if str_eqb p (py "t.xml")
                        then Some small_template
                        else Some (py "data"))
              small_template (py "urn:x:t") (py "data")
              eq_refl eq_refl eq_refl eq_refl)
    as (label & Hrun & Hlen & Hkeep).
  exists label. split; [exact Hrun|]. split; [exact Hlen|].
  apply (Hkeep 0%nat (Examples.ln "<name>foo</name>")); reflexivity.
Defined.
